(** * rancherd, package [cacerts]: CA-bundle bootstrap and trusted fetch

    A shallow embedding of [pkg/cacerts/cacerts.go].  The functions of the
    package ([hashHex], [hashBase64], [hash], [CACerts], [get], [Get],
    [MachineGet], [ToFile], [ToUpdateCACertificatesInstruction]) are
    translated statement by statement.  The Go standard library and the
    collaborators of the package appear in two ways:

    - pure, standardised functions ([encoding/hex], [encoding/base64],
      [crypto/sha256], [crypto/sha512], [crypto/hmac]) are defined here
      after their standards (RFC 4648, FIPS 180-4, RFC 2104) and checked
      on published test vectors;
    - the other library functions and the collaborators
      ([randomtoken.Generate], [url.Parse], [http.NewRequest], the HTTP
      round trip, [tpm.ResolveToken], [tpm.Get]) are fields of the record
      [Env]; a call with an effect is logged in a trace that the package
      functions thread through.

    The last part embeds [pkg/rancher/cluster.go], the function
    [UpdateClientSecret], in the module [rancher], with the Kubernetes
    clients as the fields of a record of its own.  *)

From Stdlib Require Import ZArith List Strings.Byte Ascii String DecimalString.
From stdpp Require Import base option gmap strings.
Import ListNotations.

Open Scope Z_scope.

(** ** Go values *)

(** A [[]byte] that is not nil. *)
Abbreviation bytes := (list byte).

(** A [[]byte] as a function returns it: [None] is Go's [nil] slice. *)
Abbreviation slice := (option (list byte)).

(** [len(s)] for a possibly nil slice. *)
Definition len (s : slice) : nat :=
  match s with
  | None => 0%nat
  | Some b => length b
  end.

(** The conversions [[]byte(s)] and [string(b)]. *)
Definition bytes_of (s : string) : bytes := list_byte_of_string s.
Definition string_of (b : bytes) : string := string_of_list_byte b.

(** The bytes of a slice once Go reads it: a nil slice reads as empty. *)
Definition slice_bytes (s : slice) : bytes :=
  match s with
  | None => []
  | Some b => b
  end.

Definition Z_of_byte (b : byte) : Z := Z.of_N (Byte.to_N b).

Definition byte_of_Z (z : Z) : byte :=
  match Byte.of_N (Z.to_N (z mod 256)) with
  | Some b => b
  | None => x00
  end.

(** Big-endian encoding of [z] on [n] bytes. *)
Fixpoint be_bytes (n : nat) (z : Z) : bytes :=
  match n with
  | O => []
  | S k => byte_of_Z (Z.shiftr z (8 * Z.of_nat k)) :: be_bytes k z
  end.

(** Big-endian value of a byte string. *)
Definition be_value (b : bytes) : Z :=
  fold_left (fun acc x => acc * 256 + Z_of_byte x) b 0.

(** Splits a list in chunks of [n] elements (the last one may be short). *)
Fixpoint chunks {A} (fuel n : nat) (l : list A) : list (list A) :=
  match fuel with
  | O => []
  | S f =>
    match l with
    | [] => []
    | _ => firstn n l :: chunks f n (skipn n l)
    end
  end.

(** ** [encoding/hex] *)
Module hex.

Definition hextable : string := "0123456789abcdef".

Definition digit (z : Z) : ascii :=
  match String.get (Z.to_nat z) hextable with
  | Some c => c
  | None => "0"%char
  end.

(** [hex.EncodeToString]: two lowercase digits per byte, high nibble first. *)
Fixpoint EncodeToString (src : bytes) : string :=
  match src with
  | [] => EmptyString
  | b :: rest =>
    String (digit (Z.shiftr (Z_of_byte b) 4))
      (String (digit (Z.land (Z_of_byte b) 15)) (EncodeToString rest))
  end.

End hex.

(** ** [encoding/base64], the padded standard encoding *)
Module base64.

Definition encodeStd : string :=
  "ABCDEFGHIJKLMNOPQRSTUVWXYZabcdefghijklmnopqrstuvwxyz0123456789+/".

Definition StdPadding : ascii := "="%char.

Definition enc (z : Z) : ascii :=
  match String.get (Z.to_nat (Z.land z 63)) encodeStd with
  | Some c => c
  | None => StdPadding
  end.

(** One quantum: three bytes give four characters; a remainder of one or
    two bytes is padded with [=]. *)
Definition quantum (q : bytes) : string :=
  match q with
  | [a; b; c] =>
    let v := Z_of_byte a * 65536 + Z_of_byte b * 256 + Z_of_byte c in
    String (enc (Z.shiftr v 18)) (String (enc (Z.shiftr v 12))
      (String (enc (Z.shiftr v 6)) (String (enc v) EmptyString)))
  | [a; b] =>
    let v := Z_of_byte a * 65536 + Z_of_byte b * 256 in
    String (enc (Z.shiftr v 18)) (String (enc (Z.shiftr v 12))
      (String (enc (Z.shiftr v 6)) (String StdPadding EmptyString)))
  | [a] =>
    let v := Z_of_byte a * 65536 in
    String (enc (Z.shiftr v 18)) (String (enc (Z.shiftr v 12))
      (String StdPadding (String StdPadding EmptyString)))
  | _ => EmptyString
  end.

(** [base64.StdEncoding.EncodeToString]. *)
Definition EncodeToString (src : bytes) : string :=
  String.concat EmptyString (map quantum (chunks (length src) 3 src)).

End base64.

(** ** SHA-2 (FIPS 180-4), generic in the word size *)
Module sha2.

(** The first [n] primes, by trial division. *)
Fixpoint primes_from (fuel : nat) (n : nat) (c : Z) (found : list Z) : list Z :=
  match fuel with
  | O => rev found
  | S f =>
    match n with
    | O => rev found
    | S n' =>
      if forallb (fun p => negb (c mod p =? 0)) found
      then primes_from f n' (c + 1) (c :: found)
      else primes_from f n (c + 1) found
    end
  end.

Definition primes (n : nat) : list Z := primes_from 1000 n 2 [].

(** Integer cube root: the largest [r] with [r^3 <= n], found bit by bit. *)
Fixpoint icbrt_bits (bit : nat) (n r : Z) : Z :=
  match bit with
  | O => r
  | S b =>
    let r' := r + Z.shiftl 1 (Z.of_nat b) in
    icbrt_bits b n (if r' * r' * r' <=? n then r' else r)
  end.

Definition icbrt (bits : nat) (n : Z) : Z := icbrt_bits bits n 0.

(** Fractional bits of the square roots (initial hash value) and of the
    cube roots (round constants) of the first primes, on [w] bits. *)
Definition initial (w : Z) : list Z :=
  map (fun p => Z.land (Z.sqrt (p * 2 ^ (2 * w))) (2 ^ w - 1)) (primes 8).

Definition constants (w : Z) (rounds : nat) : list Z :=
  map (fun p => Z.land (icbrt (Z.to_nat w + 4) (p * 2 ^ (3 * w))) (2 ^ w - 1))
      (primes rounds).

Section Generic.
(** [w]: bits per word. *)
Variable w : Z.
(** Rotation and shift amounts of the four sigma functions. *)
Variables S0 S1 : Z * Z * Z.
Variables s0 s1 : Z * Z * Z.
(** Initial hash value and round constants. *)
Variables H0 K : list Z.

Definition mask : Z := 2 ^ w - 1.
Definition trunc (x : Z) : Z := Z.land x mask.
Definition add (x y : Z) : Z := trunc (x + y).
Definition rotr (n x : Z) : Z :=
  trunc (Z.lor (Z.shiftr x n) (Z.shiftl x (w - n))).
Definition shr (n x : Z) : Z := Z.shiftr x n.

Definition Ch (x y z : Z) : Z :=
  Z.lxor (Z.land x y) (Z.land (Z.lxor x mask) z).
Definition Maj (x y z : Z) : Z :=
  Z.lxor (Z.lxor (Z.land x y) (Z.land x z)) (Z.land y z).

Definition bigsigma (k : Z * Z * Z) (x : Z) : Z :=
  let '(a, b, c) := k in Z.lxor (Z.lxor (rotr a x) (rotr b x)) (rotr c x).
Definition smallsigma (k : Z * Z * Z) (x : Z) : Z :=
  let '(a, b, c) := k in Z.lxor (Z.lxor (rotr a x) (rotr b x)) (shr c x).

Definition wordbytes : nat := Z.to_nat (w / 8).
Definition BlockSize : nat := 16 * wordbytes.

(** Padding: a 1 bit, zeros, and the bit length on two words, up to a
    multiple of the block size. *)
Definition pad (msg : bytes) : bytes :=
  let l := length msg in
  let used := ((l + 1 + 2 * wordbytes) mod BlockSize)%nat in
  let zeros := ((BlockSize - used) mod BlockSize)%nat in
  msg ++ [x80] ++ repeat x00 zeros
      ++ be_bytes (2 * wordbytes) (8 * Z.of_nat l).

Definition words_of_block (b : bytes) : list Z :=
  map be_value (chunks 16 wordbytes b).

Definition nthw (i : nat) (l : list Z) : Z := nth i l 0.

(** One round on the working variables [a..h], with the schedule kept as
    a window of the last sixteen words. *)
Definition round (st : list Z * list Z) (k : Z) : list Z * list Z :=
  let '(v, win) := st in
  match v with
  | [a; b; c; d; e; f; g; h] =>
    let wt := nthw 0 win in
    let t1 := add (add (add (add h (bigsigma S1 e)) (Ch e f g)) k) wt in
    let t2 := add (bigsigma S0 a) (Maj a b c) in
    let next :=
      add (add (add (smallsigma s1 (nthw 14 win)) (nthw 9 win))
               (smallsigma s0 (nthw 1 win))) (nthw 0 win) in
    ([add t1 t2; a; b; c; add d t1; e; f; g], tl win ++ [next])
  | _ => st
  end.

Definition compress (h : list Z) (block : bytes) : list Z :=
  let '(v, _) := fold_left round K (h, words_of_block block) in
  map (fun p => add (fst p) (snd p)) (combine h v).

Definition sum (msg : bytes) : bytes :=
  let p := pad msg in
  let h := fold_left compress (chunks (length p) BlockSize p) H0 in
  concat (map (be_bytes wordbytes) h).
End Generic.

End sha2.

(** ** [crypto/sha256] *)
Module sha256.

Definition BlockSize : nat := 64.
Definition Size : nat := 32.

Definition init : list Z := Eval vm_compute in sha2.initial 32.
Definition _K : list Z := Eval vm_compute in sha2.constants 32 64.

(** [sha256.Sum256]. *)
Definition Sum256 (data : bytes) : bytes :=
  sha2.sum 32 (2, 13, 22) (6, 11, 25) (7, 18, 3) (17, 19, 10) init _K data.

End sha256.

(** ** [crypto/sha512] *)
Module sha512.

Definition BlockSize : nat := 128.
Definition Size : nat := 64.

Definition init : list Z := Eval vm_compute in sha2.initial 64.
Definition _K : list Z := Eval vm_compute in sha2.constants 64 80.

(** [sha512.Sum512]. *)
Definition Sum512 (data : bytes) : bytes :=
  sha2.sum 64 (28, 34, 39) (14, 18, 41) (1, 8, 7) (19, 61, 6) init _K data.

End sha512.


(** ** [hash.Hash]: a running hash that collects what is written to it *)
Module hash.

Record Hash := {
  algorithm : bytes -> bytes;  (* the digest of everything written *)
  BlockSize : nat;
  written : bytes
}.

Definition Write (h : Hash) (p : bytes) : Hash :=
  {| algorithm := algorithm h; BlockSize := BlockSize h;
     written := written h ++ p |}.

Definition Reset (h : Hash) : Hash :=
  {| algorithm := algorithm h; BlockSize := BlockSize h; written := [] |}.

(** [h.Sum(b)] appends the digest to [b]. *)
Definition Sum (h : Hash) (b : bytes) : bytes :=
  b ++ algorithm h (written h).

End hash.

Definition sha512_New : hash.Hash :=
  {| hash.algorithm := sha512.Sum512;
     hash.BlockSize := sha512.BlockSize;
     hash.written := [] |}.

(** ** [crypto/hmac] *)
Module hmac.

Record digest := {
  opad : bytes;
  ipad : bytes;
  outer : hash.Hash;
  inner : hash.Hash
}.

Definition xor_with (c : Z) (b : byte) : byte :=
  byte_of_Z (Z.lxor (Z_of_byte b) c).

(** [copy(make([]byte, blocksize), key)]. *)
Definition copy_key (blocksize : nat) (key : bytes) : bytes :=
  firstn blocksize key ++ repeat x00 (blocksize - length key).

(** [hmac.New(h, key)]: a key longer than a block is hashed first; the
    inner hash starts with the key xor 0x36. *)
Definition New (h : hash.Hash) (key : bytes) : digest :=
  let blocksize := hash.BlockSize h in
  let hashed := (blocksize <? length key)%nat in
  let outer := if hashed then hash.Write h key else h in
  let key := if hashed then hash.Sum outer [] else key in
  let ipad := map (xor_with 54) (copy_key blocksize key) in
  let opad := map (xor_with 92) (copy_key blocksize key) in
  {| opad := opad; ipad := ipad; outer := outer;
     inner := hash.Write h ipad |}.

Definition Write (d : digest) (p : bytes) : digest :=
  {| opad := opad d; ipad := ipad d; outer := outer d;
     inner := hash.Write (inner d) p |}.

Definition Sum (d : digest) (b : bytes) : bytes :=
  let i := hash.Sum (inner d) [] in
  let outer := hash.Reset (outer d) in
  let outer := hash.Write outer (opad d) in
  let outer := hash.Write outer i in
  hash.Sum outer b.

(** RFC 2104, for comparison:
    [H((K0 xor opad) || H((K0 xor ipad) || text))]. *)
Definition rfc2104 (H : bytes -> bytes) (B : nat) (key text : bytes) : bytes :=
  let k0 := copy_key B (if (B <? length key)%nat then H key else key) in
  H (map (xor_with 92) k0 ++ H (map (xor_with 54) k0 ++ text)).

End hmac.

(** HMAC-SHA512 as a function of key and message. *)
Definition HMAC_SHA512 (key msg : bytes) : bytes :=
  hmac.rfc2104 sha512.Sum512 sha512.BlockSize key msg.

(** ** [error] values *)

(** An error carries its message; [fmt.Errorf] with [%w] also keeps the
    error it wraps. *)
Inductive error : Type :=
| errors_New (msg : string)
| wrapError (msg : string) (err : error).

Definition Error (e : error) : string :=
  match e with
  | errors_New msg => msg
  | wrapError msg _ => msg
  end.

Definition Unwrap (e : error) : option error :=
  match e with
  | errors_New _ => None
  | wrapError _ err => Some err
  end.

(** ** [fmt], for the verbs the package uses *)
Module fmt.

Inductive operand :=
| Str (s : string)
| Bytes (b : bytes)
| Int (n : Z)
| Err (e : error).

Definition itoa (n : Z) : string := NilZero.string_of_int (Z.to_int n).

(** [%s] prints strings, byte slices and errors; [%d] integers; [%w]
    errors.  Other combinations print Go's bad-verb marker. *)
Definition render (verb : ascii) (a : operand) : string :=
  match verb, a with
  | "s"%char, Str s => s
  | "s"%char, Bytes b => string_of b
  | "s"%char, Err e => Error e
  | "d"%char, Int n => itoa n
  | "w"%char, Err e => Error e
  | _, _ => String "%" (String "!" (String verb EmptyString))
  end.

Fixpoint Sprintf (format : string) (a : list operand) : string :=
  match format with
  | EmptyString => EmptyString
  | String "%" (String "%" rest) => String "%" (Sprintf rest a)
  | String "%" (String verb rest) =>
    match a with
    | x :: a' => String.append (render verb x) (Sprintf rest a')
    | [] =>
      String.append (String "%" (String "!" (String verb "(MISSING)")))
                    (Sprintf rest [])
    end
  | String c rest => String c (Sprintf rest a)
  end.

(** The operand of the first [%w], when it is an error. *)
Fixpoint wrapped (format : string) (a : list operand) : option error :=
  match format with
  | EmptyString => None
  | String "%" (String "%" rest) => wrapped rest a
  | String "%" (String verb rest) =>
    match a with
    | Err e :: a' => if Ascii.eqb verb "w" then Some e else wrapped rest a'
    | _ :: a' => wrapped rest a'
    | [] => None
    end
  | String _ rest => wrapped rest a
  end.

Definition Errorf (format : string) (a : list operand) : error :=
  match wrapped format a with
  | Some e => wrapError (Sprintf format a) e
  | None => errors_New (Sprintf format a)
  end.

End fmt.

(** ** [time] *)
Module time.
(** A [time.Duration] counts nanoseconds. *)
Definition Second : Z := 1000000000.
End time.

(** ** [net/url] *)
Module url.

(** The string fields of [url.URL].  [url.Parse] and the method [String] are
    library functions and belong to [Env]. *)
Record URL := {
  Scheme : string;
  Opaque : string;
  Host : string;
  Path : string;
  RawPath : string;
  RawQuery : string;
  Fragment : string
}.

(** The assignment [u.Path = path]. *)
Definition set_Path (u : URL) (path : string) : URL :=
  {| Scheme := Scheme u; Opaque := Opaque u; Host := Host u; Path := path;
     RawPath := RawPath u; RawQuery := RawQuery u; Fragment := Fragment u |}.

End url.

(** ** [crypto/x509] and [crypto/tls] *)
Module x509.

(** A pool is known by the PEM blocks appended to it. *)
Definition CertPool : Type := list bytes.
Definition NewCertPool : CertPool := [].
Definition AppendCertsFromPEM (pool : CertPool) (pemCerts : bytes) : CertPool :=
  pool ++ [pemCerts].

End x509.

Module tls.

(** The fields of [tls.Config] the package sets; a nil [RootCAs] means the
    host's root CA set. *)
Record Config := {
  InsecureSkipVerify : bool;
  RootCAs : option x509.CertPool
}.

End tls.

(** ** [net/http] *)
Module http.

Definition MethodGet : string := "GET".
Definition StatusOK : Z := 200.

Definition isTokenChar (c : ascii) : bool :=
  let n := nat_of_ascii c in
  ((48 <=? n) && (n <=? 57) || (65 <=? n) && (n <=? 90)
   || (97 <=? n) && (n <=? 122))%nat
  || existsb (Ascii.eqb c) (list_ascii_of_string "!#$%&'*+-.^_`|~").

Definition upper (c : ascii) : ascii :=
  let n := nat_of_ascii c in
  if ((97 <=? n) && (n <=? 122))%nat then ascii_of_nat (n - 32) else c.

Definition lower (c : ascii) : ascii :=
  let n := nat_of_ascii c in
  if ((65 <=? n) && (n <=? 90))%nat then ascii_of_nat (n + 32) else c.

Fixpoint canonical (up : bool) (s : string) : string :=
  match s with
  | EmptyString => EmptyString
  | String c rest =>
    String (if up then upper c else lower c)
           (canonical (Ascii.eqb c "-") rest)
  end.

(** [textproto.CanonicalMIMEHeaderKey]: the first letter and every letter
    after a hyphen in upper case, the others in lower case; a key with a
    byte that no header name can hold is left as it is. *)
Definition CanonicalHeaderKey (s : string) : string :=
  if forallb isTokenChar (list_ascii_of_string s) then canonical true s else s.

(** [http.Header] is [map[string][]string]. *)
Abbreviation Header := (gmap string (list string)).

Definition Header_Get (h : Header) (key : string) : string :=
  match h !! CanonicalHeaderKey key with
  | Some (v :: _) => v
  | _ => EmptyString
  end.

Definition Header_Set (h : Header) (key value : string) : Header :=
  <[CanonicalHeaderKey key := [value]]> h.

Record Request := {
  Method : string;
  URL : url.URL;
  ReqHeader : Header
}.

(** [req.Header.Set(key, value)]. *)
Definition Request_Set (req : Request) (key value : string) : Request :=
  {| Method := Method req; URL := URL req;
     ReqHeader := Header_Set (ReqHeader req) key value |}.

(** A response body is a stream; [content] and [readErr] are what
    [ioutil.ReadAll] gets out of it. *)
Record Body := {
  content : bytes;
  readErr : option error
}.

Record Response := {
  Status : string;
  StatusCode : Z;
  RespHeader : Header;
  RespBody : Body
}.

Inductive ProxyFunc := ProxyFromEnvironment.

Record Transport := {
  Proxy : option ProxyFunc;
  TLSClientConfig : option tls.Config
}.

(** A zero [Timeout] means no timeout; a nil [Transport] means
    [http.DefaultTransport]. *)
Record Client := {
  Timeout : Z;
  ClientTransport : option Transport
}.

(** [var DefaultClient = &Client{}]. *)
Definition DefaultClient : Client :=
  {| Timeout := 0; ClientTransport := None |}.

End http.

(** [ioutil.ReadAll(body)]: the data read (never nil) and the error. *)
Definition ioutil_ReadAll (b : http.Body) : bytes * option error :=
  (http.content b, http.readErr b).

(** ** [applyinator] descriptors, with the fields the package sets *)
Module applyinator.

Record Instruction := {
  Name : string;
  SaveOutput : bool;
  Command : string
}.

Record File := {
  Content : string;
  Path : string;
  Permissions : string
}.

End applyinator.

(** ** The outside world *)

(** What the package does to the outside, in the order it does it. *)
Inductive Event :=
| EvGenerate
| EvDo (c : http.Client) (req : http.Request)
| EvBodyClose (resp : http.Response)
| EvCloseIdleConnections (c : http.Client)
| EvResolveToken (token : string)
| EvTpmGet (cacert : slice) (url : string).

Abbreviation Trace := (list Event).

(** The library functions and collaborators.  Those with an effect see the
    trace so far, so that they may answer the same call differently at
    different times.  A Go pair [(v, err)] that the caller tests for
    [err != nil] before it touches [v] is a sum; where the caller passes
    both on, it is a pair. *)
Record Env := {
  randomtoken_Generate : Trace -> string + error;
  url_Parse : string -> url.URL + error;
  URL_String : url.URL -> string;
  http_NewRequest : string -> string -> http.Request + error;
  Client_Do : Trace -> http.Client -> http.Request -> http.Response + error;
  tpm_ResolveToken : Trace -> string -> bool * string * option error;
  tpm_Get : Trace -> slice -> string -> slice * option error
}.

(** Computations that extend the trace. *)
Definition M (A : Type) : Type := Trace -> A * Trace.

Definition ret {A} (a : A) : M A := fun t => (a, t).

Definition bind {A B} (m : M A) (k : A -> M B) : M B :=
  fun t => let '(a, t') := m t in k a t'.

Definition emit (e : Event) : M unit := fun t => (tt, t ++ [e]).

(** Runs [m], then the deferred call [d], and returns what [m] returned. *)
Definition defer {A} (d : Event) (m : M A) : M A :=
  bind m (fun a => bind (emit d) (fun _ => ret a)).

Notation "x <- m ;; k" := (bind m (fun x => k))
  (at level 100, m at next level, right associativity).
Notation "m ;;; k" := (bind m (fun _ => k))
  (at level 100, right associativity).

Section Calls.
Variable E : Env.

Definition Generate : M (string + error) :=
  fun t => (randomtoken_Generate E t, t ++ [EvGenerate]).

(** [c.Do(req)]. *)
Definition Do (c : http.Client) (req : http.Request)
  : M (http.Response + error) :=
  fun t => (Client_Do E t c req, t ++ [EvDo c req]).

Definition ResolveToken (token : string) : M (bool * string * option error) :=
  fun t => (tpm_ResolveToken E t token, t ++ [EvResolveToken token]).

(** [tpm.Get(cacert, url, nil)]: the header is always nil. *)
Definition tpmGet (cacert : slice) (url : string) : M (slice * option error) :=
  fun t => (tpm_Get E t cacert url, t ++ [EvTpmGet cacert url]).

(** [http.Get(url)] is [DefaultClient.Get(url)]: a new request for the
    URL, sent through the default client. *)
Definition httpGet (url : string) : M (http.Response + error) :=
  match http_NewRequest E http.MethodGet url with
  | inr err => ret (inr err)
  | inl req => Do http.DefaultClient req
  end.
End Calls.

(** ** Package [cacerts] *)

(** What [CACerts] and [get] return: [([]byte, string, error)]. *)
Abbreviation result := (slice * string * option error)%type.

Definition insecureClient : http.Client :=
  {| http.Timeout := time.Second * 5;
     http.ClientTransport := Some
       {| http.Proxy := Some http.ProxyFromEnvironment;
          http.TLSClientConfig := Some
            {| tls.InsecureSkipVerify := true; tls.RootCAs := None |} |} |}.

Definition hashHex (token : bytes) : string :=
  let hash := sha256.Sum256 token in
  hex.EncodeToString hash.

Definition hashBase64 (token : bytes) : string :=
  let hash := sha256.Sum256 token in
  base64.EncodeToString hash.

Definition hash (token nonce : string) (bytes : bytes) : string :=
  let digest := hmac.New sha512_New (bytes_of token) in
  let digest := hmac.Write digest (bytes_of nonce) in
  let digest := hmac.Write digest [x00] in
  let digest := hmac.Write digest bytes in
  let digest := hmac.Write digest [x00] in
  let hash := hmac.Sum digest [] in
  base64.EncodeToString hash.

Section Package.
Variable E : Env.

Definition CACerts (server token : string) (clusterToken : bool) : M result :=
  r <- Generate E ;;
  match r with
  | inr err => ret (None, EmptyString, Some err)
  | inl nonce =>
    match url_Parse E server with
    | inr err => ret (None, EmptyString, Some err)
    | inl url =>
      let requestURL :=
        fmt.Sprintf "https://%s/cacerts" [fmt.Str (url.Host url)] in
      let requestURL :=
        if negb clusterToken
        then fmt.Sprintf "https://%s/v1-rancheros/cacerts"
                         [fmt.Str (url.Host url)]
        else requestURL in
      probe <- httpGet E requestURL ;;
      match probe with
      | inl resp =>
        let _ := ioutil_ReadAll (http.RespBody resp) in
        emit (EvBodyClose resp) ;;;
        ret (None, EmptyString, None)
      | inr _ =>
        match http_NewRequest E http.MethodGet requestURL with
        | inr err => ret (None, EmptyString, Some err)
        | inl req =>
          let req := http.Request_Set req "X-Cattle-Nonce" nonce in
          let req :=
            http.Request_Set req "Authorization"
              (String.append "Bearer " (hashBase64 (bytes_of token))) in
          r <- Do E insecureClient req ;;
          match r with
          | inr err =>
            ret (None, EmptyString,
                 Some (fmt.Errorf "insecure cacerts download from %s: %w"
                                  [fmt.Str requestURL; fmt.Err err]))
          | inl resp =>
            defer (EvBodyClose resp)
              (let '(data, err) := ioutil_ReadAll (http.RespBody resp) in
               match err with
               | Some err => ret (None, EmptyString, Some err)
               | None =>
                 if negb (http.StatusCode resp =? http.StatusOK)
                 then
                   ret (None, EmptyString,
                        Some (fmt.Errorf
                                "response %d: %s getting cacerts: %s"
                                [fmt.Int (http.StatusCode resp);
                                 fmt.Str (http.Status resp);
                                 fmt.Bytes data]))
                 else if negb (String.eqb
                                 (http.Header_Get (http.RespHeader resp)
                                                  "X-Cattle-Hash")
                                 (hash token nonce data))
                 then
                   ret (None, EmptyString,
                        Some (fmt.Errorf
                                "response hash (%s) does not match (%s)"
                                [fmt.Str (http.Header_Get
                                            (http.RespHeader resp)
                                            "X-Cattle-Hash");
                                 fmt.Str (hash token nonce data)]))
                 else if (length data =? 0)%nat
                 then ret (None, EmptyString, None)
                 else ret (Some data, hashHex data, None)
               end)
          end
        end
      end
    end
  end.

Definition get (server token path : string) (clusterToken : bool) : M result :=
  match url_Parse E server with
  | inr err => ret (None, EmptyString, Some err)
  | inl u =>
    let u := url.set_Path u path in
    r <- (if negb clusterToken
          then ResolveToken E token
          else ret (false, token, None)) ;;
    let '(isTPM, token, err) := r in
    match err with
    | Some err => ret (None, EmptyString, Some err)
    | None =>
      r <- CACerts server token clusterToken ;;
      let '(cacert, caChecksum, err) := r in
      match err with
      | Some err => ret (None, EmptyString, Some err)
      | None =>
        if isTPM
        then
          r <- tpmGet E cacert (URL_String E u) ;;
          let '(data, err) := r in
          ret (data, caChecksum, err)
        else
          match http_NewRequest E http.MethodGet (URL_String E u) with
          | inr err => ret (None, EmptyString, Some err)
          | inl req =>
            let req :=
              if negb clusterToken
              then http.Request_Set req "Authorization"
                     (String.append "Bearer "
                        (base64.EncodeToString (bytes_of token)))
              else req in
            (* the statements after the if/else, shared by both branches *)
            let rest (resp : http.Response) : result :=
              let '(data, err) := ioutil_ReadAll (http.RespBody resp) in
              if negb (http.StatusCode resp =? http.StatusOK)
              then (None, EmptyString,
                    Some (fmt.Errorf "%s: %s"
                            [fmt.Bytes data; fmt.Str (http.Status resp)]))
              else (Some data, caChecksum, err) in
            if (len cacert =? 0)%nat
            then
              r <- Do E http.DefaultClient req ;;
              match r with
              | inr err => ret (None, EmptyString, Some err)
              | inl resp => ret (rest resp)
              end
            else
              let pool := x509.NewCertPool in
              let pool := x509.AppendCertsFromPEM pool (slice_bytes cacert) in
              let client :=
                {| http.Timeout := 5 * time.Second;
                   http.ClientTransport := Some
                     {| http.Proxy := Some http.ProxyFromEnvironment;
                        http.TLSClientConfig := Some
                          {| tls.InsecureSkipVerify := false;
                             tls.RootCAs := Some pool |} |} |} in
              defer (EvCloseIdleConnections client)
                (r <- Do E client req ;;
                 match r with
                 | inr err => ret (None, EmptyString, Some err)
                 | inl resp => ret (rest resp)
                 end)
          end
      end
    end
  end.

Definition Get (server token path : string) : M result :=
  get server token path true.

Definition MachineGet (server token path : string) : M result :=
  get server token path false.

Definition ToFile (server token : string)
  : M (option applyinator.File * option error) :=
  r <- CACerts server token true ;;
  let '(cacert, _, err) := r in
  match err with
  | Some err => ret (None, Some err)
  | None =>
    ret (Some {| applyinator.Content :=
                   base64.EncodeToString (slice_bytes cacert);
                 applyinator.Path :=
                   "/etc/pki/trust/anchors/additional-ca.pem";
                 applyinator.Permissions := "0644" |},
         None)
  end.
End Package.

Definition ToUpdateCACertificatesInstruction
  : option applyinator.Instruction * option error :=
  let cmd : string := "update-ca-certificates" in
  (Some {| applyinator.Name := "update-ca-certificates";
           applyinator.SaveOutput := true;
           applyinator.Command := cmd |},
   None).

(** ** Notions used to state the properties *)

(** The value of [requestURL] in [CACerts], as a function of the host. *)
Definition requestURL (host : string) (clusterToken : bool) : string :=
  String.append "https://"
    (String.append host
       (if clusterToken then "/cacerts" else "/v1-rancheros/cacerts")).

(** The request of the bootstrap step, built on the new request [req]. *)
Definition bootstrapRequest (req : http.Request) (nonce : string)
    (digest : bytes) : http.Request :=
  {| http.Method := http.Method req; http.URL := http.URL req;
     http.ReqHeader :=
       <["Authorization" :=
           [String.append "Bearer " (base64.EncodeToString digest)]]>
         (<["X-Cattle-Nonce" := [nonce]]> (http.ReqHeader req)) |}.

(** The client [get] builds around a non-empty bundle. *)
Definition pinnedClient (cacert : bytes) : http.Client :=
  {| http.Timeout := 5 * time.Second;
     http.ClientTransport := Some
       {| http.Proxy := Some http.ProxyFromEnvironment;
          http.TLSClientConfig := Some
            {| tls.InsecureSkipVerify := false;
               tls.RootCAs :=
                 Some (x509.AppendCertsFromPEM x509.NewCertPool cacert)
            |} |} |}.

(** [includes sub s]: [sub] occurs in [s]. *)
Fixpoint includes (sub s : string) : bool :=
  if String.prefix sub s then true
  else
    match s with
    | EmptyString => false
    | String _ rest => includes sub rest
    end.

(** The events a run adds to the trace [t] it starts from. *)
Definition added {A} (m : M A) (t : Trace) : Trace :=
  skipn (length t) (snd (m t)).

(** The run of [CACerts] from trace [t] reaches the bootstrap exchange: the
    nonce is [nonce], the probe with the new request [req] fails, and the
    bootstrap endpoint answers [resp]. *)
Definition bootstrap_exchange (E : Env) (server token : string)
    (clusterToken : bool) (t : Trace) (nonce : string) (req : http.Request)
    (resp : http.Response) : Prop :=
  exists (u : url.URL) (perr : error),
    randomtoken_Generate E t = inl nonce
    /\ url_Parse E server = inl u
    /\ http_NewRequest E http.MethodGet (requestURL (url.Host u) clusterToken)
       = inl req
    /\ Client_Do E (t ++ [EvGenerate]) http.DefaultClient req = inr perr
    /\ Client_Do E (t ++ [EvGenerate; EvDo http.DefaultClient req])
         insecureClient
         (bootstrapRequest req nonce (sha256.Sum256 (bytes_of token)))
       = inl resp.

(** The events of a run of [CACerts] from trace [t]: the nonce, the probe
    when its request can be built, the bootstrap request when the probe
    fails, and the closing of the body of the response that was read. *)
Definition CACerts_events (E : Env) (server token : string)
    (clusterToken : bool) (t : Trace) : Trace :=
  EvGenerate ::
  match randomtoken_Generate E t, url_Parse E server with
  | inl nonce, inl u =>
    match http_NewRequest E http.MethodGet
            (requestURL (url.Host u) clusterToken) with
    | inr _ => []
    | inl req =>
      EvDo http.DefaultClient req ::
      match Client_Do E (t ++ [EvGenerate]) http.DefaultClient req with
      | inl resp => [EvBodyClose resp]
      | inr _ =>
        let breq :=
          bootstrapRequest req nonce (sha256.Sum256 (bytes_of token)) in
        EvDo insecureClient breq ::
        match Client_Do E (t ++ [EvGenerate; EvDo http.DefaultClient req])
                insecureClient breq with
        | inl resp => [EvBodyClose resp]
        | inr _ => []
        end
      end
    end
  | _, _ => []
  end.

(** What [get] holds when it is about to fetch, on the path that does not
    go through the hardware: the token [tok] that it kept (its argument for
    a cluster token, and what [tpm.ResolveToken] returned otherwise), the
    bundle and checksum of [CACerts], the trace [t2] so far and the new
    request [req] for [path]. *)
Definition fetch_prepared (E : Env) (server token path : string)
    (clusterToken : bool) (t : Trace) (tok : string) (cacert : slice)
    (caChecksum : string) (t2 : Trace) (req : http.Request) : Prop :=
  exists (u : url.URL) (t1 : Trace),
    url_Parse E server = inl u
    /\ (if negb clusterToken
        then (tpm_ResolveToken E t token, t ++ [EvResolveToken token])
        else ((false, token, None), t))
       = ((false, tok, None), t1)
    /\ CACerts E server tok clusterToken t1
       = ((cacert, caChecksum, None), t2)
    /\ http_NewRequest E http.MethodGet (URL_String E (url.set_Path u path))
       = inl req.

(** The client [get] sends the request through. *)
Definition fetchClient (cacert : slice) : http.Client :=
  if (len cacert =? 0)%nat then http.DefaultClient
  else pinnedClient (slice_bytes cacert).

(** ** Test doubles: a small world to run the package in *)
Module fixture.

Fixpoint until_slash (s : string) : string * string :=
  match s with
  | EmptyString => (EmptyString, EmptyString)
  | String c rest =>
    if Ascii.eqb c "/" then (EmptyString, s)
    else let '(h, p) := until_slash rest in (String c h, p)
  end.

(** Parses [https://host/path]; anything else is an error. *)
Definition Parse (s : string) : url.URL + error :=
  if String.prefix "https://" s
  then
    let '(h, p) := until_slash (String.substring 8 (String.length s - 8) s) in
    inl {| url.Scheme := "https"; url.Opaque := EmptyString; url.Host := h;
           url.Path := p; url.RawPath := EmptyString;
           url.RawQuery := EmptyString; url.Fragment := EmptyString |}
  else inr (errors_New "first path segment in URL cannot contain colon").

Definition String_ (u : url.URL) : string :=
  String.append (url.Scheme u)
    (String.append "://" (String.append (url.Host u) (url.Path u))).

Definition NewRequest (method url : string) : http.Request + error :=
  match Parse url with
  | inr err => inr err
  | inl u => inl {| http.Method := method; http.URL := u;
                    http.ReqHeader := ∅ |}
  end.

Definition skipsVerify (c : http.Client) : bool :=
  match http.ClientTransport c with
  | Some {| http.TLSClientConfig := Some cfg |} => tls.InsecureSkipVerify cfg
  | _ => false
  end.

Definition isDo (e : Event) : bool :=
  match e with
  | EvDo _ _ => true
  | _ => false
  end.

(** A world with one server: [probe] answers the first round trip of a
    verifying client, [boot] the client that skips verification, [fetch]
    every later round trip. *)
Definition world
    (nonce : string + error)
    (probe : http.Response + error)
    (boot : http.Request -> http.Response + error)
    (fetch : http.Client -> http.Request -> http.Response + error)
    (resolve : string -> bool * string * option error)
    (hw : slice -> string -> slice * option error) : Env :=
  {| randomtoken_Generate := fun _ => nonce;
     url_Parse := Parse;
     URL_String := String_;
     http_NewRequest := NewRequest;
     Client_Do := fun t c req =>
       if skipsVerify c then boot req
       else if existsb isDo t then fetch c req else probe;
     tpm_ResolveToken := fun _ => resolve;
     tpm_Get := fun _ => hw |}.

Definition ok (body : string) (h : http.Header) : http.Response :=
  {| http.Status := "200 OK"; http.StatusCode := 200; http.RespHeader := h;
     http.RespBody := {| http.content := bytes_of body;
                         http.readErr := None |} |}.

Definition unknownAuthority : error :=
  errors_New "x509: certificate signed by unknown authority".

(** [body], signed for [nonce] with the key [token]. *)
Definition signed (token nonce body : string) : http.Response :=
  ok body
     (http.Header_Set ∅ "X-Cattle-Hash" (hash token nonce (bytes_of body))).

(** The server side of the bootstrap exchange: it signs [body] with the
    nonce of the request, keyed by [token]. *)
Definition signing (token body : string) (req : http.Request)
  : http.Response + error :=
  inl (signed token
         (http.Header_Get (http.ReqHeader req) "X-Cattle-Nonce") body).

Definition passthrough (token : string) : bool * string * option error :=
  (false, token, None).

Definition noHardware (_ : slice) (_ : string) : slice * option error :=
  (None, Some (errors_New "no TPM")).

Definition hello (_ : http.Client) (_ : http.Request)
  : http.Response + error :=
  inl (ok "hello" ∅).

Definition refused (_ : http.Request) : http.Response + error :=
  inr (errors_New "connection refused").

(** The server's certificate verifies against the host's trust store. *)
Definition trusted : Env :=
  world (inl "n0nce") (inl (ok "PEM" ∅)) refused hello passthrough noHardware.

(** The server's certificate does not verify; the bootstrap endpoint
    answers with [body], signed with [token]. *)
Definition untrusted (token body : string) : Env :=
  world (inl "n0nce") (inr unknownAuthority) (signing token body) hello
        passthrough noHardware.

(** As [untrusted], with the bootstrap endpoint answering [resp]. *)
Definition answering (resp : http.Response) : Env :=
  world (inl "n0nce") (inr unknownAuthority) (fun _ => inl resp) hello
        passthrough noHardware.

(** The token is sealed in the TPM; the hardware retrieval answers. *)
Definition sealed (hw : slice -> string -> slice * option error) : Env :=
  world (inl "n0nce") (inr unknownAuthority) (signing "unsealed" "PEM") hello
        (fun _ => (true, "unsealed"%string, None)) hw.

Definition attested (_ : slice) (_ : string) : slice * option error :=
  (Some (bytes_of "machine.yaml"), None).

(** As [untrusted], with the resource fetch answering [resp]. *)
Definition fetching (token body : string) (resp : http.Response + error)
  : Env :=
  world (inl "n0nce") (inr unknownAuthority) (signing token body)
        (fun _ _ => resp) passthrough noHardware.

Definition rancher : string := "https://rancher.example".

(** The request [http.NewRequest] builds for the well-known endpoint. *)
Definition cacertsRequest (path : string) : http.Request :=
  {| http.Method := "GET";
     http.URL :=
       {| url.Scheme := "https"; url.Opaque := EmptyString;
          url.Host := "rancher.example"; url.Path := path;
          url.RawPath := EmptyString; url.RawQuery := EmptyString;
          url.Fragment := EmptyString |};
     http.ReqHeader := ∅ |}.

(** The events of a bootstrap exchange with the server of these worlds. *)
Definition bootstrapTrace (token body path : string) : Trace :=
  [EvGenerate;
   EvDo http.DefaultClient (cacertsRequest path);
   EvDo insecureClient
     (bootstrapRequest (cacertsRequest path) "n0nce"
        (sha256.Sum256 (bytes_of token)));
   EvBodyClose (signed token "n0nce" body)].

(** A failed download: status 500 and a body that breaks off. *)
Definition broken500 : http.Response :=
  {| http.Status := "500 Internal Server Error"; http.StatusCode := 500;
     http.RespHeader := ∅;
     http.RespBody := {| http.content := bytes_of "Internal";
                         http.readErr :=
                           Some (errors_New "unexpected EOF") |} |}.

Definition notFound : http.Response :=
  {| http.Status := "404 Not Found"; http.StatusCode := 404;
     http.RespHeader := ∅;
     http.RespBody := {| http.content := bytes_of "404 page not found";
                         http.readErr := None |} |}.

End fixture.


(** ** The message [hash] authenticates *)

(** What [hash] writes to the HMAC: the nonce and the body, each followed
    by a zero byte. *)
Definition hash_message (nonce : string) (body : bytes) : bytes :=
  bytes_of nonce ++ [x00] ++ body ++ [x00].

(** The events that go to the hardware. *)
Definition isHardware (e : Event) : bool :=
  match e with
  | EvResolveToken _ | EvTpmGet _ _ => true
  | _ => false
  end.

Definition isBodyClose (e : Event) : bool :=
  match e with
  | EvBodyClose _ => true
  | _ => false
  end.


(** The events a run of [get] may add to the trace: the resolution of a
    token that is not a cluster token, the events of [CACerts] for the
    token that [get] holds, the hardware retrieval, the fetch of the
    resource and the release of the client built for it. *)
Inductive get_event (E : Env) (server token : string) (clusterToken : bool)
  : Event -> Prop :=
| get_resolves :
    clusterToken = false ->
    get_event E server token clusterToken (EvResolveToken token)
| get_bootstraps (tok : string) (t1 : Trace) (e : Event) :
    In e (CACerts_events E server tok clusterToken t1) ->
    get_event E server token clusterToken e
| get_hardware (cacert : slice) (url : string) :
    clusterToken = false ->
    get_event E server token clusterToken (EvTpmGet cacert url)
| get_fetches (cacert : slice) (c : http.Client) (req : http.Request) :
    c = fetchClient cacert ->
    get_event E server token clusterToken (EvDo c req)
| get_releases (cacert : slice) (c : http.Client) :
    len cacert <> 0%nat ->
    c = pinnedClient (slice_bytes cacert) ->
    get_event E server token clusterToken (EvCloseIdleConnections c).

(** * Package [rancher]: the client secret of the local cluster

    A shallow embedding of [pkg/rancher/cluster.go].  The Kubernetes
    clients, [kubectl.GetKubeconfig] and the file system are fields of the
    record [Kube]; the handles they pass around ([context.Context],
    [rest.Config], [dynamic.Interface], [kubernetes.Clientset]) are
    abstract.  The function can return early and can panic, so its
    statements run in a monad with these three outcomes. *)
Module rancher.

Record Options := {
  Kubeconfig : string
}.

(** A value of type [interface{}] as the object of an unstructured
    resource holds them.  Looking up a missing key gives [VNil]. *)
#[warnings="-register-all"] Inductive Value :=
| VNil
| VBool (b : bool)
| VInt (n : Z)
| VFloat (bits : Z)
| VString (s : string)
| VSlice (l : list Value)
| VMap (m : list (string * Value)).

(** [unstructured.Unstructured]. *)
Record Unstructured := {
  Object : gmap string Value
}.

(** [m[key]] on a [map[string]interface{}]. *)
Definition index (m : gmap string Value) (key : string) : Value :=
  default VNil (m !! key).

(** [schema.GroupVersionResource]. *)
Record GroupVersionResource := {
  Group : string;
  Version : string;
  Resource : string
}.

(** [v1.ObjectMeta], the fields that name and version an object. *)
Record ObjectMeta := {
  Name : string;
  Namespace : string;
  ResourceVersion : string;
  Labels : gmap string string;
  Annotations : gmap string string
}.

(** [corev1.Secret].  [Data] is a Go map, which may be nil. *)
Record Secret := {
  Meta : ObjectMeta;
  Immutable : option bool;
  Data : option (gmap string bytes);
  StringData : option (gmap string string);
  SecretType : string
}.

(** Values are immutable here, so the copy is the value itself. *)
Definition DeepCopy (s : Secret) : Secret := s.

(** What the function does to the outside, in the order it does it. *)
Inductive Call :=
| EvGetKubeconfig (kubeconfig : string)
| EvBuildConfigFromFlags (masterUrl kubeconfigPath : string)
| EvResourceGet (gvr : GroupVersionResource) (name : string)
| EvInfof (format arg : string)
| EvReadFile (filename : string)
| EvSecretGet (namespace name : string)
| EvSecretUpdate (namespace : string) (secret : Secret)
| EvPrintln (line : string).

Abbreviation Log := (list Call).

(** The ways the function panics. *)
Inductive panic :=
| panicError (err : error)        (* [NewForConfigOrDie]: [panic(err)] *)
| panicConversion (v : Value)     (* [v.(string)] on a value that is no string *)
| panicNilMap.                    (* assignment to entry in nil map *)

(** A statement goes on with a value, returns from the function, or
    panics. *)
Inductive outcome (A : Type) :=
| Next (a : A)
| Return (err : option error)
| Panic (p : panic).

Arguments Next {A} a.
Arguments Return {A} err.
Arguments Panic {A} p.

Definition K (A : Type) : Type := Log -> outcome A * Log.

Definition next {A} (a : A) : K A := fun t => (Next a, t).

Definition then_ {A B} (m : K A) (k : A -> K B) : K B :=
  fun t =>
    match m t with
    | (Next a, t') => k a t'
    | (Return err, t') => (Return err, t')
    | (Panic p, t') => (Panic p, t')
    end.

Notation "x <~ m ;; k" := (then_ m (fun x => k))
  (at level 100, m at next level, right associativity).

(** [return err]. *)
Definition return_ {A} (err : option error) : K A := fun t => (Return err, t).

(** [v, err := f(...); if err != nil { return err }], for a call [c] with
    an effect. *)
Definition call {A} (c : Call) (f : Log -> A + error) : K A :=
  fun t =>
    match f t with
    | inl a => (Next a, t ++ [c])
    | inr err => (Return (Some err), t ++ [c])
    end.

(** The same for a call without effect. *)
Definition check {A} (r : A + error) : K A :=
  match r with
  | inl a => next a
  | inr err => return_ (Some err)
  end.

(** [...OrDie]: the error is a panic. *)
Definition orDie {A} (r : A + error) : K A :=
  fun t =>
    match r with
    | inl a => (Next a, t)
    | inr err => (Panic (panicError err), t)
    end.

(** [v.(string)]. *)
Definition assertString (v : Value) : K string :=
  fun t =>
    match v with
    | VString s => (Next s, t)
    | _ => (Panic (panicConversion v), t)
    end.

Definition log (c : Call) : K unit := fun t => (Next tt, t ++ [c]).

(** [s.Data[key] = value]. *)
Definition setData (s : Secret) (key : string) (value : bytes) : K Secret :=
  fun t =>
    match Data s with
    | None => (Panic panicNilMap, t)
    | Some d =>
      (Next {| Meta := Meta s; Immutable := Immutable s;
               Data := Some (<[key := value]> d);
               StringData := StringData s; SecretType := SecretType s |}, t)
    end.

(** What a call of the function comes to: the error it returns (nil or
    not), or a panic. *)
Definition finish (o : outcome (option error) * Log)
  : (option error + panic) * Log :=
  match o with
  | (Next err, t) => (inl err, t)
  | (Return err, t) => (inl err, t)
  | (Panic p, t) => (inr p, t)
  end.

Section Cluster.
Variables Context Config Interface Clientset : Type.

(** The collaborators.  Those with an effect see the log so far. *)
Record Kube := {
  kubectl_GetKubeconfig : Log -> string -> string + error;
  clientcmd_BuildConfigFromFlags : Log -> string -> string -> Config + error;
  dynamic_NewForConfig : Config -> Interface + error;
  Resource_Get : Log -> Interface -> GroupVersionResource -> Context -> string
                 -> Unstructured + error;
  ioutil_ReadFile : Log -> string -> bytes + error;
  clientcmd_RESTConfigFromKubeConfig : bytes -> Config + error;
  kubernetes_NewForConfig : Config -> Clientset + error;
  Secrets_Get : Log -> Clientset -> string -> Context -> string
                -> Secret + error;
  (* the secret that [Update] returns is dropped by the caller *)
  Secrets_Update : Log -> Clientset -> string -> Context -> Secret
                   -> option error
}.

Variable E : Kube.

Definition settings : GroupVersionResource :=
  {| Group := "management.cattle.io"; Version := "v3";
     Resource := "settings" |}.

Definition notConfigured : error :=
  errors_New
    "Both 'internal-server-url' and 'internal-cacerts' settings must be configured".

Definition UpdateClientSecret (ctx : Context) (opts : option Options)
  : Log -> (option error + panic) * Log :=
  fun t => finish ((
    let opts :=
      match opts with
      | None => {| Kubeconfig := EmptyString |}
      | Some o => o
      end in
    kubeconfig <~ call (EvGetKubeconfig (Kubeconfig opts))
                    (fun t => kubectl_GetKubeconfig E t (Kubeconfig opts)) ;;
    conf <~ call (EvBuildConfigFromFlags EmptyString kubeconfig)
              (fun t => clientcmd_BuildConfigFromFlags E t EmptyString
                          kubeconfig) ;;
    client <~ orDie (dynamic_NewForConfig E conf) ;;
    let settingClient := Resource_Get E in
    internalServerURLSetting <~
      call (EvResourceGet settings "internal-server-url")
        (fun t => settingClient t client settings ctx "internal-server-url") ;;
    internalServerURL <~
      assertString (index (Object internalServerURLSetting) "value") ;;
    _ <~ log (EvInfof "internal-server-url is %q" internalServerURL) ;;
    internalCACertSetting <~
      call (EvResourceGet settings "internal-cacerts")
        (fun t => settingClient t client settings ctx "internal-cacerts") ;;
    internalCACerts <~
      assertString (index (Object internalCACertSetting) "value") ;;
    _ <~ log (EvInfof "internal-cacerts is %q" internalCACerts) ;;
    if String.eqb internalServerURL EmptyString
       || String.eqb internalCACerts EmptyString
    then return_ (Some notConfigured)
    else
      data <~ call (EvReadFile kubeconfig)
                (fun t => ioutil_ReadFile E t kubeconfig) ;;
      restConfig <~ check (clientcmd_RESTConfigFromKubeConfig E data) ;;
      k8s <~ check (kubernetes_NewForConfig E restConfig) ;;
      secret <~ call (EvSecretGet "fleet-local" "local-kubeconfig")
                  (fun t => Secrets_Get E t k8s "fleet-local" ctx
                              "local-kubeconfig") ;;
      let toUpdate := DeepCopy secret in
      toUpdate <~ setData toUpdate "apiServerURL"
                    (bytes_of internalServerURL) ;;
      toUpdate <~ setData toUpdate "apiServerCA"
                    (bytes_of internalCACerts) ;;
      err <~ (fun t =>
                (Next (Secrets_Update E t k8s "fleet-local" ctx toUpdate),
                 t ++ [EvSecretUpdate "fleet-local" toUpdate])) ;;
      _ <~ match err with
           | None => log (EvPrintln "Cluster client secret is updated.")
           | Some _ => next tt
           end ;;
      return_ err) t).
End Cluster.

Arguments kubectl_GetKubeconfig {Context Config Interface Clientset}.
Arguments clientcmd_BuildConfigFromFlags {Context Config Interface Clientset}.
Arguments dynamic_NewForConfig {Context Config Interface Clientset}.
Arguments Resource_Get {Context Config Interface Clientset}.
Arguments ioutil_ReadFile {Context Config Interface Clientset}.
Arguments clientcmd_RESTConfigFromKubeConfig
  {Context Config Interface Clientset}.
Arguments kubernetes_NewForConfig {Context Config Interface Clientset}.
Arguments Secrets_Get {Context Config Interface Clientset}.
Arguments Secrets_Update {Context Config Interface Clientset}.
Arguments UpdateClientSecret {Context Config Interface Clientset}.

(** The path given to [kubectl.GetKubeconfig]: nil options are empty
    options. *)
Definition kubeconfigOption (opts : option Options) : string :=
  match opts with
  | None => EmptyString
  | Some o => Kubeconfig o
  end.

(** The calls the function makes before it decides whether the settings
    are configured. *)
Definition beforeSecret (c : Call) : bool :=
  match c with
  | EvGetKubeconfig _ | EvBuildConfigFromFlags _ _ | EvResourceGet _ _
  | EvInfof _ _ => true
  | _ => false
  end.

(** The events a call adds to the log [t] it starts from. *)
Definition logged {A} (m : Log -> A * Log) (t : Log) : Log :=
  skipn (length t) (snd (m t)).

(** The calls up to and including the reading of the two settings. *)
Definition settingsRead (kubeconfigOpt kubeconfig serverURL caCerts : string)
  : Log :=
  [EvGetKubeconfig kubeconfigOpt;
   EvBuildConfigFromFlags EmptyString kubeconfig;
   EvResourceGet settings "internal-server-url";
   EvInfof "internal-server-url is %q" serverURL;
   EvResourceGet settings "internal-cacerts";
   EvInfof "internal-cacerts is %q" caCerts].

(** The run reads the two settings as the strings [serverURL] and
    [caCerts], from log [t]. *)
Definition settings_read {Context Config Interface Clientset : Type}
    (E : Kube Context Config Interface Clientset) (ctx : Context)
    (kubeconfigOpt : string) (t : Log) (kubeconfig serverURL caCerts : string)
  : Prop :=
  exists (conf : Config) (client : Interface) (s1 s2 : Unstructured),
    kubectl_GetKubeconfig E t kubeconfigOpt = inl kubeconfig
    /\ clientcmd_BuildConfigFromFlags E (t ++ [EvGetKubeconfig kubeconfigOpt])
         EmptyString kubeconfig = inl conf
    /\ dynamic_NewForConfig E conf = inl client
    /\ Resource_Get E
         (t ++ [EvGetKubeconfig kubeconfigOpt;
                EvBuildConfigFromFlags EmptyString kubeconfig])
         client settings ctx "internal-server-url" = inl s1
    /\ index (Object s1) "value" = VString serverURL
    /\ Resource_Get E
         (t ++ [EvGetKubeconfig kubeconfigOpt;
                EvBuildConfigFromFlags EmptyString kubeconfig;
                EvResourceGet settings "internal-server-url";
                EvInfof "internal-server-url is %q" serverURL])
         client settings ctx "internal-cacerts" = inl s2
    /\ index (Object s2) "value" = VString caCerts.

(** After the settings, the run reads the kubeconfig file, builds the
    typed client [k8s] and gets the secret. *)
Definition secret_read {Context Config Interface Clientset : Type}
    (E : Kube Context Config Interface Clientset) (ctx : Context)
    (t1 : Log) (kubeconfig : string) (k8s : Clientset) (secret : Secret)
  : Prop :=
  exists (data : bytes) (restConfig : Config),
    ioutil_ReadFile E t1 kubeconfig = inl data
    /\ clientcmd_RESTConfigFromKubeConfig E data = inl restConfig
    /\ kubernetes_NewForConfig E restConfig = inl k8s
    /\ Secrets_Get E (t1 ++ [EvReadFile kubeconfig]) k8s "fleet-local" ctx
         "local-kubeconfig" = inl secret.

(** The secret with the two entries set in its data [d]. *)
Definition updated (secret : Secret) (d : gmap string bytes)
    (serverURL caCerts : string) : Secret :=
  {| Meta := Meta secret; Immutable := Immutable secret;
     Data := Some (<["apiServerCA" := bytes_of caCerts]>
                     (<["apiServerURL" := bytes_of serverURL]> d));
     StringData := StringData secret; SecretType := SecretType secret |}.

(** ** Test doubles *)
Module double.

Definition setting (value : Value) : Unstructured :=
  {| Object := {["value" := value]} |}.

Definition localKubeconfig (data : option (gmap string bytes)) : Secret :=
  {| Meta := {| Name := "local-kubeconfig"; Namespace := "fleet-local";
                ResourceVersion := "41"; Labels := ∅; Annotations := ∅ |};
     Immutable := None;
     Data := data;
     StringData := None;
     SecretType := "Opaque" |}.

(** A cluster whose settings hold [serverURL] and [caCerts], whose secret
    is [secret], and whose API server answers an update with [answer]. *)
Definition cluster (serverURL caCerts : Value) (secret : Secret + error)
    (answer : option error) : Kube unit unit unit unit :=
  {| kubectl_GetKubeconfig := fun _ path =>
       if String.eqb path EmptyString
       then inl "/etc/rancher/rke2/rke2.yaml"%string else inl path;
     clientcmd_BuildConfigFromFlags := fun _ _ _ => inl tt;
     dynamic_NewForConfig := fun _ => inl tt;
     Resource_Get := fun _ _ _ _ name =>
       if String.eqb name "internal-server-url"
       then inl (setting serverURL) else inl (setting caCerts);
     ioutil_ReadFile := fun _ _ => inl (bytes_of "apiVersion: v1");
     clientcmd_RESTConfigFromKubeConfig := fun _ => inl tt;
     kubernetes_NewForConfig := fun _ => inl tt;
     Secrets_Get := fun _ _ _ _ _ => secret;
     Secrets_Update := fun _ _ _ _ _ => answer |}.

Definition conflict : error :=
  errors_New "the object has been modified".

End double.

End rancher.


(** * Properties *)

(** ** The library models on published test vectors *)

Example hex_abc : hex.EncodeToString (bytes_of "abc") = "616263"%string.
Proof. reflexivity. Qed.

Example base64_padding :
  map (fun s => base64.EncodeToString (bytes_of s))
      [EmptyString; "f"; "fo"; "foo"; "foob"; "fooba"; "foobar"]%string
  = [EmptyString; "Zg=="; "Zm8="; "Zm9v"; "Zm9vYg=="; "Zm9vYmE=";
     "Zm9vYmFy"]%string.
Proof. reflexivity. Qed.

Example sha256_abc :
  hex.EncodeToString (sha256.Sum256 (bytes_of "abc"))
  = "ba7816bf8f01cfea414140de5dae2223b00361a396177a9cb410ff61f20015ad"%string.
Proof. vm_compute. reflexivity. Qed.

Example sha256_empty :
  hashHex []
  = "e3b0c44298fc1c149afbf4c8996fb92427ae41e4649b934ca495991b7852b855"%string.
Proof. vm_compute. reflexivity. Qed.

Example sha512_abc :
  hex.EncodeToString (sha512.Sum512 (bytes_of "abc"))
  = ("ddaf35a193617abacc417349ae20413112e6fa4e89a97ea20a9eeee64b55d39a"
     ++ "2192992a274fc1a836ba3c23a3feebbd454d4423643ce80e2a9ac94fa54ca49f")%string.
Proof. vm_compute. reflexivity. Qed.

Example hmac_sha512_fox :
  hex.EncodeToString
    (HMAC_SHA512 (bytes_of "key")
       (bytes_of "The quick brown fox jumps over the lazy dog"))
  = ("b42af09057bac1e2d41708e48a902e09b5ff7f12ab428a4fe86653c73dd248fb"
     ++ "82f948a549f7b791a5b41915ee4d1ec3935357e4e2317250d0372afa2ebeeb3a")%string.
Proof. vm_compute. reflexivity. Qed.

Example canonical_keys :
  map http.CanonicalHeaderKey
      ["X-Cattle-Nonce"; "Authorization"; "X-Cattle-Hash"; "x-cattle-hash"]%string
  = ["X-Cattle-Nonce"; "Authorization"; "X-Cattle-Hash"; "X-Cattle-Hash"]%string.
Proof. reflexivity. Qed.

(** ** [hash], [hmac] and [fmt] *)

(** The streaming interface of [hmac] computes the function of RFC 2104 on
    everything written. *)
Lemma hmac_Sum_rfc2104 (h : hash.Hash) (key : bytes) (chunks : list bytes) :
  hash.written h = [] ->
  hmac.Sum (fold_left hmac.Write chunks (hmac.New h key)) []
  = hmac.rfc2104 (hash.algorithm h) (hash.BlockSize h) key (concat chunks).
Proof.
  intros Hfresh.
  assert (Hfold : forall cs d,
    fold_left hmac.Write cs d
    = {| hmac.opad := hmac.opad d; hmac.ipad := hmac.ipad d;
         hmac.outer := hmac.outer d;
         hmac.inner := hash.Write (hmac.inner d) (concat cs) |}).
  { induction cs as [|c cs IH]; intros d; simpl.
    - destruct d as [o i ou inn]; destruct inn; simpl.
      unfold hash.Write; simpl. now rewrite app_nil_r.
    - rewrite IH. unfold hmac.Write, hash.Write; simpl.
      now rewrite <- app_assoc. }
  rewrite Hfold.
  unfold hmac.Sum, hmac.New, hmac.rfc2104, hash.Sum, hash.Write, hash.Reset.
  simpl. rewrite Hfresh. simpl.
  destruct (hash.BlockSize h <? length key)%nat; simpl; rewrite ?Hfresh; reflexivity.
Qed.

Lemma hash_HMAC_SHA512 (token nonce : string) (data : bytes) :
  hash token nonce data
  = base64.EncodeToString
      (HMAC_SHA512 (bytes_of token)
         (bytes_of nonce ++ [x00] ++ data ++ [x00])).
Proof.
  unfold hash, HMAC_SHA512.
  change (hmac.Sum _ []) with
    (hmac.Sum (fold_left hmac.Write [bytes_of nonce; [x00]; data; [x00]]
                 (hmac.New sha512_New (bytes_of token))) []).
  rewrite hmac_Sum_rfc2104 by reflexivity.
  cbv [concat]. reflexivity.
Qed.

Lemma append_cons (c : ascii) (s t : string) :
  String.append (String c s) t = String c (String.append s t).
Proof. reflexivity. Qed.

Lemma append_nil_r (s : string) : String.append s EmptyString = s.
Proof.
  induction s as [|c s IH]; [reflexivity | now rewrite append_cons, IH].
Qed.

Lemma Sprintf_requestURL (host : string) (clusterToken : bool) :
  (if negb clusterToken
   then fmt.Sprintf "https://%s/v1-rancheros/cacerts" [fmt.Str host]
   else fmt.Sprintf "https://%s/cacerts" [fmt.Str host])
  = requestURL host clusterToken.
Proof. destruct clusterToken; reflexivity. Qed.

Lemma Sprintf_bad_status (code : Z) (status : string) (data : bytes) :
  fmt.Sprintf "response %d: %s getting cacerts: %s"
              [fmt.Int code; fmt.Str status; fmt.Bytes data]
  = String.append "response "
      (String.append (fmt.itoa code)
         (String.append ": "
            (String.append status
               (String.append " getting cacerts: " (string_of data))))).
Proof.
  cbn [fmt.Sprintf fmt.render]. now rewrite append_nil_r.
Qed.

Lemma Sprintf_fetch_status (data : bytes) (status : string) :
  fmt.Sprintf "%s: %s" [fmt.Bytes data; fmt.Str status]
  = String.append (string_of data) (String.append ": " status).
Proof.
  cbn [fmt.Sprintf fmt.render]. now rewrite append_nil_r.
Qed.

Lemma Errorf_plain (format : string) (a : list fmt.operand) :
  fmt.wrapped format a = None ->
  fmt.Errorf format a = errors_New (fmt.Sprintf format a).
Proof. unfold fmt.Errorf. now intros ->. Qed.

(** ** [hex.EncodeToString] writes lowercase digits *)

Lemma get_In (n : nat) (s : string) (c : ascii) :
  String.get n s = Some c -> In c (list_ascii_of_string s).
Proof.
  revert n. induction s as [|a s IH]; intros [|n]; cbn; try discriminate.
  - intros [= ->]. now left.
  - intros H. right. eauto.
Qed.

Lemma digit_lowercase (z : Z) :
  In (hex.digit z) (list_ascii_of_string "0123456789abcdef").
Proof.
  unfold hex.digit.
  destruct (String.get (Z.to_nat z) hex.hextable) as [c|] eqn:Hget.
  - exact (get_In _ _ _ Hget).
  - now left.
Qed.

Lemma hex_lowercase (b : bytes) :
  Forall (fun c => In c (list_ascii_of_string "0123456789abcdef"))
         (list_ascii_of_string (hex.EncodeToString b)).
Proof.
  induction b as [|x b IH]; cbn [hex.EncodeToString list_ascii_of_string].
  - constructor.
  - constructor; [apply digit_lowercase|].
    constructor; [apply digit_lowercase | exact IH].
Qed.

(** ** Substrings *)

Lemma prefix_append (sub s : string) :
  String.prefix sub (String.append sub s) = true.
Proof.
  induction sub as [|c sub IH].
  - now destruct s.
  - rewrite append_cons. simpl.
    destruct (Ascii.ascii_dec c c); [exact IH | congruence].
Qed.

Lemma includes_here (sub s : string) :
  includes sub (String.append sub s) = true.
Proof.
  assert (Hpre : forall x, String.prefix sub x = true -> includes sub x = true).
  { intros [|c x] Hx; cbn [includes]; now rewrite Hx. }
  apply Hpre, prefix_append.
Qed.

Lemma includes_later (sub a s : string) :
  includes sub s = true -> includes sub (String.append a s) = true.
Proof.
  intros H. induction a as [|c a IH]; [exact H|].
  rewrite append_cons. cbn [includes]. rewrite IH.
  now destruct (String.prefix sub (String c (String.append a s))).
Qed.

Lemma includes_end (sub : string) : includes sub sub = true.
Proof.
  rewrite <- (append_nil_r sub) at 2. apply includes_here.
Qed.

Create HintDb includes.
#[global] Hint Resolve includes_here includes_later includes_end : includes.

(** ** The trace only grows *)

Lemma added_app {A} (m : M A) (t ev : Trace) :
  snd (m t) = t ++ ev -> added m t = ev.
Proof.
  unfold added. intros ->. rewrite skipn_app, skipn_all.
  now rewrite Nat.sub_diag.
Qed.

Arguments hash : simpl never.
Arguments hashHex : simpl never.
Arguments hashBase64 : simpl never.
Arguments fmt.Sprintf : simpl never.
Arguments fmt.Errorf : simpl never.
Arguments base64.EncodeToString : simpl never.
Arguments http.CanonicalHeaderKey : simpl never.

(** Unfolds a run of the package down to the calls of [Env]. *)
Ltac run :=
  unfold CACerts, httpGet, defer, bind, ret, emit, Generate, Do,
    ResolveToken, tpmGet, ioutil_ReadAll;
  cbv beta zeta.

(** ** [CACerts] when the probe succeeds *)
Section Probe.
Variable E : Env.
Variables server token : string.
Variable clusterToken : bool.
Variable t : Trace.
Variable nonce : string.
Variable u : url.URL.
Variable resp : http.Response.

Hypothesis Hgen : randomtoken_Generate E t = inl nonce.
Hypothesis Hparse : url_Parse E server = inl u.
Hypothesis Hprobe :
  fst (httpGet E (requestURL (url.Host u) clusterToken) (t ++ [EvGenerate]))
  = inl resp.

Lemma CACerts_probe_run :
  exists req,
    http_NewRequest E http.MethodGet (requestURL (url.Host u) clusterToken)
    = inl req
    /\ CACerts E server token clusterToken t
       = ((None, EmptyString, None),
          t ++ [EvGenerate; EvDo http.DefaultClient req; EvBodyClose resp]).
Proof.
  revert Hprobe. run. rewrite Hgen, Hparse, Sprintf_requestURL.
  destruct (http_NewRequest E http.MethodGet _) as [req|err]; cbn [fst];
    [|discriminate].
  intros ->. exists req. split; [reflexivity|].
  now rewrite <- !app_assoc.
Qed.
End Probe.

(** C2.  When the plain GET of the probe returns without error, whatever
    the response is, [CACerts] returns a nil bundle, an empty checksum and
    a nil error, and no request goes through the client of the bootstrap
    exchange. *)
Theorem CACerts_probe_success
    (E : Env) (server token : string) (clusterToken : bool) (t : Trace)
    (nonce : string) (u : url.URL) (resp : http.Response) :
  randomtoken_Generate E t = inl nonce ->
  url_Parse E server = inl u ->
  fst (httpGet E (requestURL (url.Host u) clusterToken) (t ++ [EvGenerate]))
  = inl resp ->
  fst (CACerts E server token clusterToken t) = (None, EmptyString, None)
  /\ forall req,
       ~ In (EvDo insecureClient req)
            (added (CACerts E server token clusterToken) t).
Proof.
  intros Hgen Hparse Hprobe.
  destruct (CACerts_probe_run E server token clusterToken t nonce u resp
              Hgen Hparse Hprobe) as (req0 & _ & Hrun).
  split; [now rewrite Hrun|].
  intros req. erewrite added_app by (rewrite Hrun; reflexivity).
  cbn [In]. intros [H|[H|[H|[]]]]; try discriminate.
Qed.

Lemma CACerts_probe_success_witness :
  fst (CACerts fixture.trusted fixture.rancher "tok" true [])
  = (None, EmptyString, None)
  /\ forall req,
       ~ In (EvDo insecureClient req)
            (added (CACerts fixture.trusted fixture.rancher "tok" true) []).
Proof.
  eapply (CACerts_probe_success fixture.trusted fixture.rancher "tok" true []);
    vm_compute; reflexivity.
Defined.

(** ** [CACerts] when the probe fails and the bootstrap endpoint answers *)
Section Bootstrap.
Variable E : Env.
Variables server token : string.
Variable clusterToken : bool.
Variable t : Trace.
Variable nonce : string.
Variable u : url.URL.
Variable req : http.Request.
Variable perr : error.
Variable resp : http.Response.

Hypothesis Hgen : randomtoken_Generate E t = inl nonce.
Hypothesis Hparse : url_Parse E server = inl u.
Hypothesis Hreq :
  http_NewRequest E http.MethodGet (requestURL (url.Host u) clusterToken)
  = inl req.
Hypothesis Hprobe :
  Client_Do E (t ++ [EvGenerate]) http.DefaultClient req = inr perr.
Hypothesis Hboot :
  Client_Do E (t ++ [EvGenerate; EvDo http.DefaultClient req]) insecureClient
    (bootstrapRequest req nonce (sha256.Sum256 (bytes_of token)))
  = inl resp.

(** What [CACerts] makes of the response, and the trace it leaves. *)
Lemma CACerts_bootstrap_run :
  CACerts E server token clusterToken t
  = (match http.readErr (http.RespBody resp) with
     | Some err => (None, EmptyString, Some err)
     | None =>
       if negb (http.StatusCode resp =? http.StatusOK)
       then (None, EmptyString,
             Some (fmt.Errorf "response %d: %s getting cacerts: %s"
                     [fmt.Int (http.StatusCode resp);
                      fmt.Str (http.Status resp); fmt.Bytes (http.content (http.RespBody resp))]))
       else if negb (String.eqb
                       (http.Header_Get (http.RespHeader resp)
                                        "X-Cattle-Hash")
                       (hash token nonce
                             (http.content (http.RespBody resp))))
       then (None, EmptyString,
             Some (fmt.Errorf "response hash (%s) does not match (%s)"
                     [fmt.Str (http.Header_Get (http.RespHeader resp)
                                               "X-Cattle-Hash");
                      fmt.Str (hash token nonce
                                    (http.content (http.RespBody resp)))]))
       else if (length (http.content (http.RespBody resp)) =? 0)%nat
       then (None, EmptyString, None)
       else (Some (http.content (http.RespBody resp)),
             hashHex (http.content (http.RespBody resp)), None)
     end,
     t ++ [EvGenerate; EvDo http.DefaultClient req;
           EvDo insecureClient
             (bootstrapRequest req nonce (sha256.Sum256 (bytes_of token)));
           EvBodyClose resp]).
Proof.
  run. rewrite Hgen, Hparse, Sprintf_requestURL, Hreq.
  cbn [fst snd]. rewrite Hprobe.
  change (http.Request_Set (http.Request_Set req "X-Cattle-Nonce" nonce)
            "Authorization" _)
    with (bootstrapRequest req nonce (sha256.Sum256 (bytes_of token))).
  rewrite <- !app_assoc. cbn [app]. rewrite Hboot.
  destruct (http.readErr (http.RespBody resp));
    [now rewrite <- !app_assoc|].
  destruct (negb (http.StatusCode resp =? http.StatusOK));
    [now rewrite <- !app_assoc|].
  destruct (negb (String.eqb _ _)); [now rewrite <- !app_assoc|].
  destruct (length _ =? 0)%nat; now rewrite <- !app_assoc.
Qed.
End Bootstrap.

Lemma CACerts_exchange_run
    (E : Env) (server token : string) (clusterToken : bool) (t : Trace)
    (nonce : string) (req : http.Request) (resp : http.Response) :
  bootstrap_exchange E server token clusterToken t nonce req resp ->
  let data := http.content (http.RespBody resp) in
  let header := http.Header_Get (http.RespHeader resp) "X-Cattle-Hash" in
  CACerts E server token clusterToken t
  = (match http.readErr (http.RespBody resp) with
     | Some err => (None, EmptyString, Some err)
     | None =>
       if negb (http.StatusCode resp =? http.StatusOK)
       then (None, EmptyString,
             Some (fmt.Errorf "response %d: %s getting cacerts: %s"
                     [fmt.Int (http.StatusCode resp);
                      fmt.Str (http.Status resp); fmt.Bytes data]))
       else if negb (String.eqb header (hash token nonce data))
       then (None, EmptyString,
             Some (fmt.Errorf "response hash (%s) does not match (%s)"
                     [fmt.Str header; fmt.Str (hash token nonce data)]))
       else if (length data =? 0)%nat
       then (None, EmptyString, None)
       else (Some data, hashHex data, None)
     end,
     t ++ [EvGenerate; EvDo http.DefaultClient req;
           EvDo insecureClient
             (bootstrapRequest req nonce (sha256.Sum256 (bytes_of token)));
           EvBodyClose resp]).
Proof.
  intros (u & perr & Hgen & Hparse & Hreq & Hprobe & Hboot).
  exact (CACerts_bootstrap_run E server token clusterToken t nonce u req perr
           resp Hgen Hparse Hreq Hprobe Hboot).
Qed.

(** The exchanges of the test worlds. *)
Lemma untrusted_exchange (token body : string) (clusterToken : bool) :
  let path := if clusterToken then "/cacerts" else "/v1-rancheros/cacerts" in
  bootstrap_exchange (fixture.untrusted token body) fixture.rancher token
    clusterToken [] "n0nce" (fixture.cacertsRequest path)
    (fixture.signed token "n0nce" body).
Proof.
  eexists _, fixture.unknownAuthority.
  destruct clusterToken; repeat split; reflexivity.
Qed.

Lemma signed_header (token nonce body : string) :
  http.Header_Get (http.RespHeader (fixture.signed token nonce body))
                  "X-Cattle-Hash"
  = hash token nonce (bytes_of body).
Proof. reflexivity. Qed.

Lemma answering_exchange (resp : http.Response) (token : string) :
  bootstrap_exchange (fixture.answering resp) fixture.rancher token true []
    "n0nce" (fixture.cacertsRequest "/cacerts") resp.
Proof.
  eexists _, fixture.unknownAuthority. repeat split; reflexivity.
Qed.

(** C1.  For a bootstrap response with status 200 whose body was read,
    [CACerts] returns no error exactly when the header [X-Cattle-Hash]
    equals base64(HMAC-SHA512(key = token, message = nonce, 0, body, 0));
    on a mismatch it returns an error with a nil bundle and an empty
    checksum, so the body does not reach the caller. *)
Theorem CACerts_hash_verification
    (E : Env) (server token : string) (clusterToken : bool) (t : Trace)
    (nonce : string) (req : http.Request) (resp : http.Response) :
  bootstrap_exchange E server token clusterToken t nonce req resp ->
  http.readErr (http.RespBody resp) = None ->
  http.StatusCode resp = http.StatusOK ->
  let body := http.content (http.RespBody resp) in
  let header := http.Header_Get (http.RespHeader resp) "X-Cattle-Hash" in
  let expected :=
    base64.EncodeToString
      (HMAC_SHA512 (bytes_of token)
         (bytes_of nonce ++ [x00] ++ body ++ [x00])) in
  let r := fst (CACerts E server token clusterToken t) in
  (snd r = None <-> header = expected)
  /\ (header <> expected ->
      exists err, r = (None, EmptyString, Some err)).
Proof.
  intros Hex Hread Hstatus body header expected r.
  subst r. rewrite (CACerts_exchange_run _ _ _ _ _ _ _ _ Hex).
  cbn [fst]. rewrite Hread, Hstatus. cbn [negb Z.eqb http.StatusOK Pos.eqb].
  fold body header. rewrite hash_HMAC_SHA512. fold expected.
  destruct (String.eqb_spec header expected) as [Heq|Hne]; cbn [negb].
  - split; [|contradiction].
    destruct (length body =? 0)%nat; cbn [snd]; tauto.
  - split; [|eauto]. cbn [snd]. split; [discriminate|contradiction].
Qed.

Lemma CACerts_hash_verification_witness :
  let resp := fixture.signed "tok" "n0nce" "PEM" in
  let body := http.content (http.RespBody resp) in
  let header := http.Header_Get (http.RespHeader resp) "X-Cattle-Hash" in
  let expected :=
    base64.EncodeToString
      (HMAC_SHA512 (bytes_of "tok")
         (bytes_of "n0nce" ++ [x00] ++ body ++ [x00])) in
  let r := fst (CACerts (fixture.untrusted "tok" "PEM") fixture.rancher "tok"
                        true []) in
  (snd r = None <-> header = expected)
  /\ (header <> expected ->
      exists err, r = (None, EmptyString, Some err)).
Proof.
  apply (CACerts_hash_verification (fixture.untrusted "tok" "PEM")
           fixture.rancher "tok" true [] "n0nce"
           (fixture.cacertsRequest "/cacerts")
           (fixture.signed "tok" "n0nce" "PEM")
           (untrusted_exchange "tok" "PEM" true));
    reflexivity.
Defined.

(** C3.  When the response passes the verification, [CACerts] returns
    nil, the empty string and nil for an empty body, which is what it returns when the
    probe succeeds, and otherwise the body with the lowercase hexadecimal
    SHA-256 digest of the body and a nil error. *)
Theorem CACerts_verified_result
    (E : Env) (server token : string) (clusterToken : bool) (t : Trace)
    (nonce : string) (req : http.Request) (resp : http.Response) :
  bootstrap_exchange E server token clusterToken t nonce req resp ->
  http.readErr (http.RespBody resp) = None ->
  http.StatusCode resp = http.StatusOK ->
  http.Header_Get (http.RespHeader resp) "X-Cattle-Hash"
  = base64.EncodeToString
      (HMAC_SHA512 (bytes_of token)
         (bytes_of nonce ++ [x00] ++ http.content (http.RespBody resp)
            ++ [x00])) ->
  let b := http.content (http.RespBody resp) in
  let r := fst (CACerts E server token clusterToken t) in
  (b = [] -> r = (None, EmptyString, None))
  /\ (b <> [] ->
      r = (Some b, hex.EncodeToString (sha256.Sum256 b), None))
  /\ Forall (fun c => In c (list_ascii_of_string "0123456789abcdef"))
            (list_ascii_of_string (hex.EncodeToString (sha256.Sum256 b)))
  /\ (b = [] ->
      forall E' server' token' clusterToken' t' nonce' u' resp',
        randomtoken_Generate E' t' = inl nonce' ->
        url_Parse E' server' = inl u' ->
        fst (httpGet E' (requestURL (url.Host u') clusterToken')
                     (t' ++ [EvGenerate])) = inl resp' ->
        fst (CACerts E' server' token' clusterToken' t') = r).
Proof.
  intros Hex Hread Hstatus Hhash b r.
  assert (Hr : r = if (length b =? 0)%nat then (None, EmptyString, None)
                   else (Some b, hashHex b, None)).
  { subst r. rewrite (CACerts_exchange_run _ _ _ _ _ _ _ _ Hex).
    cbn [fst]. rewrite Hread, Hstatus, hash_HMAC_SHA512, Hhash.
    now rewrite String.eqb_refl. }
  split; [|split; [|split; [apply hex_lowercase|]]].
  - intros Hb. rewrite Hr, Hb. reflexivity.
  - intros Hb. rewrite Hr. destruct b; [contradiction|reflexivity].
  - intros Hb E' server' token' clusterToken' t' nonce' u' resp' Hg Hp Hprobe.
    destruct (CACerts_probe_run E' server' token' clusterToken' t' nonce' u'
                resp' Hg Hp Hprobe) as (req' & _ & Hrun).
    rewrite Hrun, Hr, Hb. reflexivity.
Qed.

Lemma CACerts_verified_result_witness :
  let b := http.content (http.RespBody (fixture.signed "tok" "n0nce" "PEM")) in
  let r := fst (CACerts (fixture.untrusted "tok" "PEM") fixture.rancher "tok"
                        true []) in
  (b = [] -> r = (None, EmptyString, None))
  /\ (b <> [] ->
      r = (Some b, hex.EncodeToString (sha256.Sum256 b), None))
  /\ Forall (fun c => In c (list_ascii_of_string "0123456789abcdef"))
            (list_ascii_of_string (hex.EncodeToString (sha256.Sum256 b)))
  /\ (b = [] ->
      forall E' server' token' clusterToken' t' nonce' u' resp',
        randomtoken_Generate E' t' = inl nonce' ->
        url_Parse E' server' = inl u' ->
        fst (httpGet E' (requestURL (url.Host u') clusterToken')
                     (t' ++ [EvGenerate])) = inl resp' ->
        fst (CACerts E' server' token' clusterToken' t') = r).
Proof.
  apply (CACerts_verified_result (fixture.untrusted "tok" "PEM")
           fixture.rancher "tok" true [] "n0nce"
           (fixture.cacertsRequest "/cacerts")
           (fixture.signed "tok" "n0nce" "PEM")
           (untrusted_exchange "tok" "PEM" true)).
  - reflexivity.
  - reflexivity.
  - exact (eq_trans (signed_header "tok" "n0nce" "PEM")
                    (hash_HMAC_SHA512 "tok" "n0nce" (bytes_of "PEM"))).
Defined.

(** C4, as the code has it.  For a bootstrap response whose status is not
    200, [CACerts] returns a nil bundle, an empty checksum and an error.
    When reading the body failed, the error is the read error; when the
    body was read, the message of the error holds the status code, the
    status text and the whole body, which is not shortened. *)
Theorem CACerts_bad_status
    (E : Env) (server token : string) (clusterToken : bool) (t : Trace)
    (nonce : string) (req : http.Request) (resp : http.Response) :
  bootstrap_exchange E server token clusterToken t nonce req resp ->
  http.StatusCode resp <> http.StatusOK ->
  let body := http.content (http.RespBody resp) in
  exists err,
    fst (CACerts E server token clusterToken t)
    = (None, EmptyString, Some err)
    /\ match http.readErr (http.RespBody resp) with
       | Some rerr => err = rerr
       | None =>
         Error err
         = String.append "response "
             (String.append (fmt.itoa (http.StatusCode resp))
                (String.append ": "
                   (String.append (http.Status resp)
                      (String.append " getting cacerts: "
                                     (string_of body)))))
         /\ includes (fmt.itoa (http.StatusCode resp)) (Error err) = true
         /\ includes (http.Status resp) (Error err) = true
         /\ includes (string_of body) (Error err) = true
       end.
Proof.
  intros Hex Hstatus body.
  rewrite (CACerts_exchange_run _ _ _ _ _ _ _ _ Hex). cbn [fst].
  destruct (http.readErr (http.RespBody resp)) as [rerr|]; [eauto|].
  apply Z.eqb_neq in Hstatus. rewrite Hstatus. cbn [negb].
  eexists. split; [reflexivity|].
  rewrite Errorf_plain by reflexivity. cbn [Error].
  rewrite Sprintf_bad_status. fold body.
  repeat split; auto 10 with includes.
Qed.

Lemma CACerts_bad_status_witness :
  let resp := fixture.notFound in
  let body := http.content (http.RespBody resp) in
  exists err,
    fst (CACerts (fixture.answering resp) fixture.rancher "tok" true [])
    = (None, EmptyString, Some err)
    /\ match http.readErr (http.RespBody resp) with
       | Some rerr => err = rerr
       | None =>
         Error err
         = String.append "response "
             (String.append (fmt.itoa (http.StatusCode resp))
                (String.append ": "
                   (String.append (http.Status resp)
                      (String.append " getting cacerts: "
                                     (string_of body)))))
         /\ includes (fmt.itoa (http.StatusCode resp)) (Error err) = true
         /\ includes (http.Status resp) (Error err) = true
         /\ includes (string_of body) (Error err) = true
       end.
Proof.
  apply (CACerts_bad_status (fixture.answering fixture.notFound)
           fixture.rancher "tok" true [] "n0nce"
           (fixture.cacertsRequest "/cacerts") fixture.notFound
           (answering_exchange fixture.notFound "tok")).
  vm_compute. discriminate.
Defined.

(** C4 as stated fails: the bootstrap endpoint answers 500 and the body
    breaks off while it is read; [CACerts] returns the read error, which
    names neither the status nor the body. *)
Lemma CACerts_bad_status_read_error :
  exists err,
    bootstrap_exchange (fixture.answering fixture.broken500) fixture.rancher
      "tok" true [] "n0nce" (fixture.cacertsRequest "/cacerts")
      fixture.broken500
    /\ http.StatusCode fixture.broken500 <> http.StatusOK
    /\ fst (CACerts (fixture.answering fixture.broken500) fixture.rancher
                    "tok" true [])
       = (None, EmptyString, Some err)
    /\ includes "500" (Error err) = false
    /\ includes (http.Status fixture.broken500) (Error err) = false
    /\ includes (string_of (http.content (http.RespBody fixture.broken500)))
                (Error err) = false.
Proof.
  exists (errors_New "unexpected EOF").
  split; [apply answering_exchange|].
  split; [vm_compute; discriminate|].
  repeat split; vm_compute; reflexivity.
Qed.

(** ** Every round trip of [CACerts] *)

Lemma bootstrapRequest_headers (req : http.Request) (nonce token : string) :
  http.Request_Set (http.Request_Set req "X-Cattle-Nonce" nonce)
    "Authorization" (String.append "Bearer " (hashBase64 (bytes_of token)))
  = bootstrapRequest req nonce (sha256.Sum256 (bytes_of token)).
Proof. reflexivity. Qed.

(** The events of a run of [CACerts], in every case. *)
Lemma CACerts_snd
    (E : Env) (server token : string) (clusterToken : bool) (t : Trace) :
  snd (CACerts E server token clusterToken t)
  = t ++ CACerts_events E server token clusterToken t.
Proof.
  unfold CACerts_events. run.
  destruct (randomtoken_Generate E t) as [nonce|]; [|reflexivity].
  destruct (url_Parse E server) as [u|]; [|reflexivity].
  rewrite Sprintf_requestURL.
  destruct (http_NewRequest E http.MethodGet _) as [req|]; [|reflexivity].
  cbn [fst snd].
  destruct (Client_Do E (t ++ [EvGenerate]) http.DefaultClient req)
    as [resp|]; [now rewrite <- !app_assoc|].
  rewrite bootstrapRequest_headers. rewrite <- !app_assoc. cbn [app].
  destruct (Client_Do E _ insecureClient _) as [resp|];
    [|now rewrite <- ?app_assoc].
  destruct (http.readErr (http.RespBody resp));
    [now rewrite <- !app_assoc|].
  destruct (negb (http.StatusCode resp =? http.StatusOK));
    [now rewrite <- !app_assoc|].
  destruct (negb (String.eqb _ _)); [now rewrite <- !app_assoc|].
  destruct (length _ =? 0)%nat; now rewrite <- !app_assoc.
Qed.

Lemma CACerts_added
    (E : Env) (server token : string) (clusterToken : bool) (t : Trace) :
  added (CACerts E server token clusterToken) t
  = CACerts_events E server token clusterToken t.
Proof. apply added_app, CACerts_snd. Qed.

(** C5.  Every round trip of a run of [CACerts] is either the probe or the
    bootstrap request.  Both are built on the request that
    [http.NewRequest] makes for GET and the URL [https://{host}/cacerts]
    for a cluster token, [https://{host}/v1-rancheros/cacerts] otherwise,
    where [{host}] is the host of the server URL and nothing else of it.
    The probe is that request, sent through the default client; the
    bootstrap request goes through the client that skips verification,
    with [X-Cattle-Nonce] set to the nonce and [Authorization] set to
    [Bearer] and the base64 of the SHA-256 digest of the token.  When the
    bootstrap endpoint answers, the run consists of these two round trips. *)
Theorem CACerts_round_trips
    (E : Env) (server token : string) (clusterToken : bool) (t : Trace) :
  (forall (c : http.Client) (r : http.Request),
     In (EvDo c r) (added (CACerts E server token clusterToken) t) ->
     exists (nonce : string) (u : url.URL) (req : http.Request),
       randomtoken_Generate E t = inl nonce
       /\ url_Parse E server = inl u
       /\ http_NewRequest E "GET"
            (String.append "https://"
               (String.append (url.Host u)
                  (if clusterToken then "/cacerts"
                   else "/v1-rancheros/cacerts")))
          = inl req
       /\ (c = http.DefaultClient /\ r = req
           \/ c = insecureClient
              /\ r = {| http.Method := http.Method req;
                        http.URL := http.URL req;
                        http.ReqHeader :=
                          <["Authorization" :=
                              [String.append "Bearer "
                                 (base64.EncodeToString
                                    (sha256.Sum256 (bytes_of token)))]]>
                            (<["X-Cattle-Nonce" := [nonce]]>
                               (http.ReqHeader req)) |}))
  /\ (forall (nonce : string) (req : http.Request) (resp : http.Response),
        bootstrap_exchange E server token clusterToken t nonce req resp ->
        added (CACerts E server token clusterToken) t
        = [EvGenerate; EvDo http.DefaultClient req;
           EvDo insecureClient
             (bootstrapRequest req nonce (sha256.Sum256 (bytes_of token)));
           EvBodyClose resp]).
Proof.
  split.
  - intros c r. rewrite CACerts_added. unfold CACerts_events.
    intros [H|H]; [discriminate|]. revert H.
    destruct (randomtoken_Generate E t) as [nonce|]; [|intros []].
    destruct (url_Parse E server) as [u|]; [|intros []].
    fold (requestURL (url.Host u) clusterToken).
    destruct (http_NewRequest E http.MethodGet
                (requestURL (url.Host u) clusterToken))
      as [req|] eqn:Hreq; [|intros []].
    intros H. exists nonce, u, req.
    split; [reflexivity|]. split; [reflexivity|]. split; [exact Hreq|].
    destruct H as [H|H]; [injection H as <- <-; now left|].
    destruct (Client_Do E (t ++ [EvGenerate]) http.DefaultClient _);
      [destruct H as [H|[]]; discriminate|].
    destruct H as [H|H]; [injection H as <- <-; now right|].
    destruct (Client_Do E _ insecureClient _);
      [destruct H as [H|[]]; discriminate | destruct H].
  - intros nonce req resp Hex. apply added_app.
    now rewrite (CACerts_exchange_run _ _ _ _ _ _ _ _ Hex).
Qed.

Lemma CACerts_round_trips_witness :
  added (CACerts (fixture.untrusted "tok" "PEM") fixture.rancher "tok" false)
        []
  = [EvGenerate;
     EvDo http.DefaultClient (fixture.cacertsRequest "/v1-rancheros/cacerts");
     EvDo insecureClient
       (bootstrapRequest (fixture.cacertsRequest "/v1-rancheros/cacerts")
          "n0nce" (sha256.Sum256 (bytes_of "tok")));
     EvBodyClose (fixture.signed "tok" "n0nce" "PEM")].
Proof.
  exact (proj2 (CACerts_round_trips (fixture.untrusted "tok" "PEM")
                  fixture.rancher "tok" false [])
           "n0nce"%string
           (fixture.cacertsRequest "/v1-rancheros/cacerts")
           (fixture.signed "tok" "n0nce" "PEM")
           (untrusted_exchange "tok" "PEM" false)).
Defined.

(** ** [CACerts] never returns data with an error *)


(** A bundle that [CACerts] returns is nil or not empty. *)
Lemma CACerts_bundle_not_empty
    (E : Env) (server token : string) (clusterToken : bool) (t : Trace)
    (pem : bytes) (checksum : string) (err : option error) :
  fst (CACerts E server token clusterToken t) = (Some pem, checksum, err) ->
  pem <> [] /\ checksum = hashHex pem /\ err = None.
Proof.
  run.
  destruct (randomtoken_Generate E t) as [nonce|]; cbn [fst];
    [|discriminate].
  destruct (url_Parse E server) as [u|]; cbn [fst]; [|discriminate].
  destruct (http_NewRequest E http.MethodGet _) as [req|]; cbn [fst snd];
    [|discriminate].
  destruct (Client_Do E (t ++ [EvGenerate]) http.DefaultClient req);
    cbn [fst]; [discriminate|].
  destruct (Client_Do E _ insecureClient _) as [resp|]; cbn [fst];
    [|discriminate].
  destruct (http.readErr (http.RespBody resp)); cbn [fst]; [discriminate|].
  destruct (negb (http.StatusCode resp =? http.StatusOK)); cbn [fst];
    [discriminate|].
  destruct (negb (String.eqb _ _)); cbn [fst]; [discriminate|].
  destruct (http.content (http.RespBody resp)) as [|b bs] eqn:Hb;
    cbn [length Nat.eqb fst]; [discriminate|].
  intros [= <- <- <-]. repeat split. discriminate.
Qed.

(** ** [get] *)

Ltac run_get :=
  unfold get, defer, bind, ret, emit, Do, ResolveToken, tpmGet,
    ioutil_ReadAll;
  cbv beta zeta.

(** [get] on the hardware-backed path. *)
Lemma get_tpm_run
    (E : Env) (server token path : string) (t : Trace) (u : url.URL)
    (resolved : string) :
  url_Parse E server = inl u ->
  tpm_ResolveToken E t token = (true, resolved, None) ->
  get E server token path false t
  = let target := URL_String E (url.set_Path u path) in
    let '((cacert, caChecksum, cerr), t2) :=
      CACerts E server resolved false (t ++ [EvResolveToken token]) in
    match cerr with
    | Some err => ((None, EmptyString, Some err), t2)
    | None =>
      let '(data, err) := tpm_Get E t2 cacert target in
      ((data, caChecksum, err), t2 ++ [EvTpmGet cacert target])
    end.
Proof.
  intros Hparse Hres. run_get. rewrite Hparse. cbn [negb]. rewrite Hres.
  destruct (CACerts E server resolved false (t ++ [EvResolveToken token]))
    as [[[cacert caChecksum] [cerr|]] t2]; [reflexivity|].
  now destruct (tpm_Get E t2 cacert _).
Qed.

(** C6.  For a token that is not a cluster token and that [tpm.ResolveToken]
    reports as hardware-backed, [get] calls [CACerts] with the resolved
    token and hands its bundle and the URL to [tpm.Get], whose data and
    error it returns with the checksum of [CACerts].  It builds no request
    and no client of its own: every round trip of the run is one of
    [CACerts] with the resolved token. *)
Theorem get_hardware_backed
    (E : Env) (server token path : string) (t : Trace) (u : url.URL)
    (resolved : string) :
  url_Parse E server = inl u ->
  tpm_ResolveToken E t token = (true, resolved, None) ->
  let target := URL_String E (url.set_Path u path) in
  let t1 := t ++ [EvResolveToken token] in
  let bootstrap := CACerts E server resolved false t1 in
  (forall cacert caChecksum,
     fst bootstrap = (cacert, caChecksum, None) ->
     get E server token path false t
     = ((fst (tpm_Get E (snd bootstrap) cacert target), caChecksum,
         snd (tpm_Get E (snd bootstrap) cacert target)),
        snd bootstrap ++ [EvTpmGet cacert target]))
  /\ (forall err,
        snd (fst bootstrap) = Some err ->
        get E server token path false t
        = ((None, EmptyString, Some err), snd bootstrap))
  /\ (forall c r,
        In (EvDo c r) (added (get E server token path false) t) ->
        In (EvDo c r) (CACerts_events E server resolved false t1)).
Proof.
  intros Hparse Hres target t1 bootstrap.
  pose proof (get_tpm_run E server token path t u resolved Hparse Hres)
    as Hrun.
  pose proof (CACerts_snd E server resolved false t1) as Hsnd.
  fold bootstrap in Hsnd. cbv zeta in Hrun.
  fold target t1 bootstrap in Hrun.
  destruct bootstrap as [[[cacert0 cs0] cerr0] t2]. cbn [fst snd] in *.
  subst t2. repeat split.
  - intros cacert caChecksum [= -> -> ->]. rewrite Hrun.
    now destruct (tpm_Get E _ cacert target).
  - intros err ->. exact Hrun.
  - intros c r. unfold added. rewrite Hrun.
    destruct cerr0 as [err|]; [|destruct (tpm_Get E _ cacert0 target)];
      cbn [snd]; subst t1;
      rewrite <- ?app_assoc, skipn_app, skipn_all, Nat.sub_diag;
      cbn [skipn app]; rewrite ?in_app_iff; cbn [In];
      rewrite ?in_app_iff; cbn [In];
      first [ intros [H|[H|[H|[]]]]; [discriminate|exact H|discriminate]
            | intros [H|H]; [discriminate|exact H] ].
Qed.

Lemma get_hardware_backed_witness :
  get (fixture.sealed fixture.attested) fixture.rancher "tpm://ek"
      "/v1-rancheros/registration" false []
  = ((Some (bytes_of "machine.yaml"), hashHex (bytes_of "PEM"), None),
     snd (CACerts (fixture.sealed fixture.attested) fixture.rancher "unsealed"
                  false [EvResolveToken "tpm://ek"])
     ++ [EvTpmGet (Some (bytes_of "PEM"))
           "https://rancher.example/v1-rancheros/registration"]).
Proof.
  destruct (get_hardware_backed (fixture.sealed fixture.attested)
              fixture.rancher "tpm://ek" "/v1-rancheros/registration" []
              (http.URL (fixture.cacertsRequest EmptyString)) "unsealed"
              eq_refl eq_refl) as (H & _ & _).
  rewrite (H (Some (bytes_of "PEM")) (hashHex (bytes_of "PEM")));
    [reflexivity | vm_compute; reflexivity].
Defined.

(** [get] on the path that builds the request itself. *)
Lemma get_fetch_run
    (E : Env) (server token path : string) (clusterToken : bool) (t : Trace)
    (tok : string) (cacert : slice) (caChecksum : string) (t2 : Trace)
    (req : http.Request) :
  fetch_prepared E server token path clusterToken t tok cacert caChecksum t2
                 req ->
  let sent :=
    if negb clusterToken
    then http.Request_Set req "Authorization"
           (String.append "Bearer " (base64.EncodeToString (bytes_of tok)))
    else req in
  let c := fetchClient cacert in
  get E server token path clusterToken t
  = (match Client_Do E t2 c sent with
     | inr err => (None, EmptyString, Some err)
     | inl resp =>
       if negb (http.StatusCode resp =? http.StatusOK)
       then (None, EmptyString,
             Some (fmt.Errorf "%s: %s"
                     [fmt.Bytes (http.content (http.RespBody resp));
                      fmt.Str (http.Status resp)]))
       else (Some (http.content (http.RespBody resp)), caChecksum,
             http.readErr (http.RespBody resp))
     end,
     t2 ++ EvDo c sent ::
       (if (len cacert =? 0)%nat then []
        else [EvCloseIdleConnections c])).
Proof.
  intros (u & t1 & Hparse & Hres & Hca & Hreq) sent c.
  run_get. rewrite Hparse.
  assert (Hres' :
    (if negb clusterToken then tpm_ResolveToken E t token
     else (false, token, None)) = (false, tok, None)
    /\ (if negb clusterToken then t ++ [EvResolveToken token] else t) = t1).
  { destruct clusterToken; cbn [negb] in *; now inversion Hres. }
  destruct Hres' as [Hres1 Hres2].
  subst sent c. unfold fetchClient.
  destruct clusterToken; cbn [negb] in *;
    [injection Hres1 as <- | rewrite Hres1]; subst t1; rewrite Hca, Hreq.
  all: destruct (len cacert =? 0)%nat; cbv beta iota zeta.
  all: unfold pinnedClient.
  all: match goal with
       | |- context [Client_Do ?e ?tr ?c ?r] =>
         destruct (Client_Do e tr c r) as [resp|];
           [destruct (negb (http.StatusCode resp =? http.StatusOK))|]
       end.
  all: now rewrite <- ?app_assoc.
Qed.

(** C7, as the code has it.  When the bundle of [CACerts] is not empty,
    [get] sends the request through a client of its own, with a timeout of
    five seconds and the pool made of the bundle as its only root, and
    releases the idle connections of that client afterwards, whether the
    round trip fails or not.  When the bundle is empty, the request goes
    through [http.DefaultClient], which has no timeout and the default
    transport, and nothing is released. *)
Theorem get_fetch_client
    (E : Env) (server token path : string) (clusterToken : bool) (t : Trace)
    (tok : string) (cacert : slice) (caChecksum : string) (t2 : Trace)
    (req : http.Request) :
  fetch_prepared E server token path clusterToken t tok cacert caChecksum t2
                 req ->
  exists sent : http.Request,
    ((len cacert <> 0)%nat ->
     let c := pinnedClient (slice_bytes cacert) in
     snd (get E server token path clusterToken t)
     = t2 ++ [EvDo c sent; EvCloseIdleConnections c]
     /\ http.Timeout c = 5 * 1000000000
     /\ http.ClientTransport c
        = Some {| http.Proxy := Some http.ProxyFromEnvironment;
                  http.TLSClientConfig := Some
                    {| tls.InsecureSkipVerify := false;
                       tls.RootCAs := Some [slice_bytes cacert] |} |})
    /\ (len cacert = 0%nat ->
        snd (get E server token path clusterToken t)
        = t2 ++ [EvDo http.DefaultClient sent]
        /\ http.Timeout http.DefaultClient = 0
        /\ http.ClientTransport http.DefaultClient = None).
Proof.
  intros Hprep. eexists.
  rewrite (get_fetch_run _ _ _ _ _ _ _ _ _ _ _ Hprep). cbn [snd].
  unfold fetchClient. split.
  - intros Hlen. apply Nat.eqb_neq in Hlen. rewrite Hlen.
    repeat split.
  - intros Hlen. rewrite Hlen. cbn [Nat.eqb]. repeat split.
Qed.

Lemma fetching_prepared (resp : http.Response + error) :
  fetch_prepared (fixture.fetching "tok" "PEM" resp) fixture.rancher "tok"
    "/v1/settings" false [] "tok" (Some (bytes_of "PEM"))
    (hashHex (bytes_of "PEM"))
    (EvResolveToken "tok"
       :: fixture.bootstrapTrace "tok" "PEM" "/v1-rancheros/cacerts")
    (fixture.cacertsRequest "/v1/settings").
Proof.
  exists (http.URL (fixture.cacertsRequest EmptyString)),
         [EvResolveToken "tok"].
  split; [reflexivity|]. split; [reflexivity|].
  split; [vm_compute; reflexivity | reflexivity].
Qed.

Lemma get_fetch_client_witness :
  exists sent : http.Request,
    ((len (Some (bytes_of "PEM")) <> 0)%nat ->
     let c := pinnedClient (slice_bytes (Some (bytes_of "PEM"))) in
     snd (get (fixture.fetching "tok" "PEM" (inr fixture.unknownAuthority))
              fixture.rancher "tok" "/v1/settings" false [])
     = (EvResolveToken "tok"
          :: fixture.bootstrapTrace "tok" "PEM" "/v1-rancheros/cacerts")
       ++ [EvDo c sent; EvCloseIdleConnections c]
     /\ http.Timeout c = 5 * 1000000000
     /\ http.ClientTransport c
        = Some {| http.Proxy := Some http.ProxyFromEnvironment;
                  http.TLSClientConfig := Some
                    {| tls.InsecureSkipVerify := false;
                       tls.RootCAs :=
                         Some [slice_bytes (Some (bytes_of "PEM"))] |} |})
    /\ (len (Some (bytes_of "PEM")) = 0%nat ->
        snd (get (fixture.fetching "tok" "PEM" (inr fixture.unknownAuthority))
                 fixture.rancher "tok" "/v1/settings" false [])
        = (EvResolveToken "tok"
             :: fixture.bootstrapTrace "tok" "PEM" "/v1-rancheros/cacerts")
          ++ [EvDo http.DefaultClient sent]
        /\ http.Timeout http.DefaultClient = 0
        /\ http.ClientTransport http.DefaultClient = None).
Proof.
  exact (get_fetch_client _ _ _ _ _ _ _ _ _ _ _
           (fetching_prepared (inr fixture.unknownAuthority))).
Defined.

(** C7 as stated fails: the server is trusted, the bundle is empty, and the
    request for the resource goes through [http.DefaultClient], whose
    timeout is not five seconds; no idle connection is released. *)
Lemma get_default_client_no_timeout :
  let tr := snd (get fixture.trusted fixture.rancher "tok" "/v1/settings"
                     true []) in
  tr = [EvGenerate;
        EvDo http.DefaultClient (fixture.cacertsRequest "/cacerts");
        EvBodyClose (fixture.ok "PEM" ∅);
        EvDo http.DefaultClient (fixture.cacertsRequest "/v1/settings")]
  /\ http.Timeout http.DefaultClient <> 5 * time.Second
  /\ forall c, ~ In (EvCloseIdleConnections c) tr.
Proof.
  assert (Htr :
    snd (get fixture.trusted fixture.rancher "tok" "/v1/settings" true [])
    = [EvGenerate;
       EvDo http.DefaultClient (fixture.cacertsRequest "/cacerts");
       EvBodyClose (fixture.ok "PEM" ∅);
       EvDo http.DefaultClient (fixture.cacertsRequest "/v1/settings")])
    by (vm_compute; reflexivity).
  cbv zeta. rewrite Htr. repeat split; [discriminate|].
  intros c [H|[H|[H|[H|[]]]]]; discriminate.
Qed.

Lemma Header_Get_Set (h : http.Header) (key value : string) :
  http.Header_Get (http.Header_Set h key value) key = value.
Proof.
  unfold http.Header_Get, http.Header_Set. now rewrite lookup_insert_eq.
Qed.

(** C8.  On the path where [get] fetches the resource itself, the request
    is the one [http.NewRequest] makes for GET and the URL built from the
    server and the path.  For a token
    that is not a cluster token it carries [Authorization], [Bearer] and
    the base64 of the token that [get] holds, not hashed: what
    [tpm.ResolveToken] returned, which is the token given to [get] when
    the resolver passes it through.  For a cluster token nothing is
    attached.  On status 200 [get] returns the body with the checksum of
    [CACerts] (and the error of reading the body); on another status it
    returns an error whose message is the body, a colon and the status. *)
Theorem get_fetch_result
    (E : Env) (server token path : string) (clusterToken : bool) (t : Trace)
    (tok : string) (cacert : slice) (caChecksum : string) (t2 : Trace)
    (req : http.Request) :
  fetch_prepared E server token path clusterToken t tok cacert caChecksum t2
                 req ->
  exists (sent : http.Request) (rest : Trace),
    snd (get E server token path clusterToken t)
    = t2 ++ EvDo (fetchClient cacert) sent :: rest
    /\ http.Method sent = http.Method req
    /\ http.URL sent = http.URL req
    /\ (clusterToken = false ->
        http.ReqHeader sent
        = <["Authorization" :=
              [String.append "Bearer "
                 (base64.EncodeToString (bytes_of tok))]]>
            (http.ReqHeader req)
        /\ http.Header_Get (http.ReqHeader sent) "Authorization"
           = String.append "Bearer " (base64.EncodeToString (bytes_of tok))
        /\ (tpm_ResolveToken E t token = (false, token, None) ->
            tok = token))
    /\ (clusterToken = true -> sent = req)
    /\ forall resp : http.Response,
         Client_Do E t2 (fetchClient cacert) sent = inl resp ->
         let data := http.content (http.RespBody resp) in
         (http.StatusCode resp = http.StatusOK ->
          fst (get E server token path clusterToken t)
          = (Some data, caChecksum, http.readErr (http.RespBody resp)))
         /\ (http.StatusCode resp <> http.StatusOK ->
             exists err,
               fst (get E server token path clusterToken t)
               = (None, EmptyString, Some err)
               /\ Error err
                  = String.append (string_of data)
                      (String.append ": " (http.Status resp))
               /\ includes (string_of data) (Error err) = true
               /\ includes (http.Status resp) (Error err) = true).
Proof.
  intros Hprep. pose proof Hprep as (u & t1 & Hparse & Hres & _ & Hreq).
  rewrite (get_fetch_run _ _ _ _ _ _ _ _ _ _ _ Hprep). cbn [fst snd].
  eexists _, _. split; [reflexivity|].
  split; [now destruct clusterToken|].
  split; [now destruct clusterToken|].
  split.
  { intros ->. cbn [negb] in *. split; [reflexivity|].
    split; [apply Header_Get_Set|].
    intros Hpass. rewrite Hpass in Hres. now injection Hres as <-. }
  split; [now intros ->|].
  intros resp ->. split.
  - intros ->. reflexivity.
  - intros Hstatus. apply Z.eqb_neq in Hstatus. rewrite Hstatus. cbn [negb].
    eexists. split; [reflexivity|].
    rewrite Errorf_plain by reflexivity. cbn [Error].
    rewrite Sprintf_fetch_status. repeat split; auto 10 with includes.
Qed.

Lemma get_fetch_result_witness :
  exists (sent : http.Request) (rest : Trace),
    snd (get (fixture.fetching "tok" "PEM" (inl (fixture.ok "hello" ∅)))
             fixture.rancher "tok" "/v1/settings" false [])
    = (EvResolveToken "tok"
         :: fixture.bootstrapTrace "tok" "PEM" "/v1-rancheros/cacerts")
      ++ EvDo (fetchClient (Some (bytes_of "PEM"))) sent :: rest
    /\ http.Header_Get (http.ReqHeader sent) "Authorization"
       = String.append "Bearer " (base64.EncodeToString (bytes_of "tok"))
    /\ fst (get (fixture.fetching "tok" "PEM" (inl (fixture.ok "hello" ∅)))
                fixture.rancher "tok" "/v1/settings" false [])
       = (Some (bytes_of "hello"), hashHex (bytes_of "PEM"), None).
Proof.
  destruct (get_fetch_result _ _ _ _ _ _ _ _ _ _ _
              (fetching_prepared (inl (fixture.ok "hello" ∅))))
    as (sent & rest & Htrace & _ & _ & Hbearer & _ & Hresult).
  exists sent, rest. split; [exact Htrace|].
  split; [exact (proj1 (proj2 (Hbearer eq_refl)))|].
  exact (proj1 (Hresult (fixture.ok "hello" ∅) eq_refl) eq_refl).
Defined.




(** ** [ToFile] *)

(** C10.  When the cluster-scoped call of [CACerts] succeeds with an empty
    bundle, [ToFile] returns a descriptor and a nil error: the content is
    the base64 of nothing, the empty string, the path is
    [/etc/pki/trust/anchors/additional-ca.pem] and the permissions are
    [0644].  Nothing in the result tells this case from another. *)
Theorem ToFile_empty_bundle
    (E : Env) (server token : string) (t : Trace) (cacert : slice)
    (checksum : string) :
  fst (CACerts E server token true t) = (cacert, checksum, None) ->
  len cacert = 0%nat ->
  ToFile E server token t
  = ((Some {| applyinator.Content := EmptyString;
              applyinator.Path := "/etc/pki/trust/anchors/additional-ca.pem";
              applyinator.Permissions := "0644" |},
      None),
     snd (CACerts E server token true t)).
Proof.
  intros Hca Hlen. unfold ToFile, bind, ret.
  destruct (CACerts E server token true t) as [[[c cs] e] t2].
  cbn [fst snd] in *. injection Hca as -> -> ->.
  destruct cacert as [[|b bs]|]; [reflexivity | discriminate | reflexivity].
Qed.

Lemma ToFile_empty_bundle_witness :
  ToFile fixture.trusted fixture.rancher "tok" []
  = ((Some {| applyinator.Content := EmptyString;
              applyinator.Path := "/etc/pki/trust/anchors/additional-ca.pem";
              applyinator.Permissions := "0644" |},
      None),
     snd (CACerts fixture.trusted fixture.rancher "tok" true [])).
Proof.
  apply (ToFile_empty_bundle fixture.trusted fixture.rancher "tok" [] None
           EmptyString); reflexivity.
Defined.

(** ** End-to-end scenarios *)

(** The server presents a certificate the host trusts. *)
Example scenario_probe :
  fst (CACerts fixture.trusted fixture.rancher "tok" true [])
  = (None, EmptyString, None).
Proof. vm_compute. reflexivity. Qed.

(** The bootstrap endpoint returns a bundle signed for the nonce. *)
Example scenario_bootstrap :
  fst (CACerts (fixture.untrusted "tok" "PEM") fixture.rancher "tok" true [])
  = (Some (bytes_of "PEM"),
     "384fb9a44fabe158be2757b9b8d8f67029f2280fcc1776ab2a53103e6f0c582d"%string,
     None).
Proof. vm_compute. reflexivity. Qed.

(** The bundle is signed for another nonce: an error and a nil bundle. *)
Example scenario_wrong_nonce :
  exists err,
    fst (CACerts (fixture.answering (fixture.signed "tok" "stale" "PEM"))
                 fixture.rancher "tok" true [])
    = (None, EmptyString, Some err).
Proof. eexists. vm_compute. reflexivity. Qed.

(** The bundle is signed with another token. *)
Example scenario_wrong_token :
  exists err,
    fst (CACerts (fixture.untrusted "t0k" "PEM") fixture.rancher "tok" true [])
    = (None, EmptyString, Some err).
Proof. eexists. vm_compute. reflexivity. Qed.

(** An empty body, signed: nothing to install. *)
Example scenario_empty_body :
  fst (CACerts (fixture.untrusted "tok" EmptyString) fixture.rancher "tok"
               true [])
  = (None, EmptyString, None).
Proof. vm_compute. reflexivity. Qed.

Example scenario_instruction :
  ToUpdateCACertificatesInstruction
  = (Some {| applyinator.Name := "update-ca-certificates";
             applyinator.SaveOutput := true;
             applyinator.Command := "update-ca-certificates" |},
     None).
Proof. reflexivity. Qed.

(** * Further properties of the package *)

(** ** Sizes of digests and encodings *)

Lemma length_be_bytes (n : nat) (z : Z) : length (be_bytes n z) = n.
Proof. induction n as [|n IH]; cbn [be_bytes length]; congruence. Qed.

Lemma length_concat_be_bytes (n : nat) (h : list Z) :
  length (concat (map (be_bytes n) h)) = (n * length h)%nat.
Proof.
  induction h as [|z h IH]; cbn [map concat length].
  - now rewrite Nat.mul_0_r.
  - rewrite length_app, length_be_bytes, IH, Nat.mul_succ_r.
    apply Nat.add_comm.
Qed.

Section Sha2Length.
Variable w : Z.
Variables S0 S1 s0 s1 : Z * Z * Z.
Variables H0 K : list Z.

Lemma round_length (st : list Z * list Z) (k : Z) :
  length (fst st) = 8%nat ->
  length (fst (sha2.round w S0 S1 s0 s1 st k)) = 8%nat.
Proof.
  destruct st as [v win]. cbn [fst]. intros Hv.
  do 9 (destruct v as [|? v]; try discriminate). reflexivity.
Qed.

Lemma rounds_length (ks : list Z) (st : list Z * list Z) :
  length (fst st) = 8%nat ->
  length (fst (fold_left (sha2.round w S0 S1 s0 s1) ks st)) = 8%nat.
Proof.
  revert st. induction ks as [|k ks IH]; intros st Hst; cbn [fold_left].
  - exact Hst.
  - apply IH, round_length, Hst.
Qed.

Lemma compress_length (h : list Z) (block : bytes) :
  length h = 8%nat ->
  length (sha2.compress w S0 S1 s0 s1 K h block) = 8%nat.
Proof.
  intros Hh. unfold sha2.compress.
  pose proof (rounds_length K (h, sha2.words_of_block w block) Hh) as Hv.
  destruct (fold_left _ K _) as [v win]. cbn [fst] in Hv.
  rewrite length_map, length_combine, Hh, Hv. reflexivity.
Qed.

Lemma sum_length (msg : bytes) :
  length H0 = 8%nat ->
  length (sha2.sum w S0 S1 s0 s1 H0 K msg) = (sha2.wordbytes w * 8)%nat.
Proof.
  intros HH0. unfold sha2.sum. rewrite length_concat_be_bytes. f_equal.
  generalize (chunks (length (sha2.pad w msg)) (sha2.BlockSize w)
                     (sha2.pad w msg)).
  intros blocks. revert HH0. generalize H0 as h.
  induction blocks as [|b blocks IH]; intros h Hh; cbn [fold_left].
  - exact Hh.
  - apply IH, compress_length, Hh.
Qed.
End Sha2Length.

Lemma Sum256_length (data : bytes) :
  length (sha256.Sum256 data) = sha256.Size.
Proof. unfold sha256.Sum256. now rewrite sum_length. Qed.

Lemma Sum512_length (data : bytes) :
  length (sha512.Sum512 data) = sha512.Size.
Proof. unfold sha512.Sum512. now rewrite sum_length. Qed.

Lemma hex_length (b : bytes) :
  String.length (hex.EncodeToString b) = (2 * length b)%nat.
Proof.
  induction b as [|x b IH]; cbn [hex.EncodeToString String.length length].
  - reflexivity.
  - rewrite IH. now rewrite Nat.mul_succ_r, Nat.add_comm.
Qed.

Lemma append_length (a b : string) :
  String.length (String.append a b)
  = (String.length a + String.length b)%nat.
Proof.
  induction a as [|c a IH]; [reflexivity|].
  rewrite append_cons. cbn [String.length]. now rewrite IH.
Qed.

Lemma chunks_nil {A} (fuel n : nat) : @chunks A fuel n [] = [].
Proof. destruct fuel; reflexivity. Qed.

(** The padded encoding takes four characters for every three bytes,
    rounded up. *)
Lemma base64_length_fuel (fuel : nat) (l : bytes) :
  (length l <= fuel)%nat ->
  String.length
    (String.concat EmptyString (map base64.quantum (chunks fuel 3 l)))
  = (4 * ((length l + 2) / 3))%nat.
Proof.
  revert l. induction fuel as [|fuel IH]; intros l Hl.
  - destruct l; [reflexivity | cbn in Hl; inversion Hl].
  - destruct l as [|a [|b [|c l]]];
      [ reflexivity
      | cbn [chunks firstn skipn map]; rewrite chunks_nil; reflexivity
      | cbn [chunks firstn skipn map]; rewrite chunks_nil; reflexivity
      | ].
    change (chunks (S fuel) 3 (a :: b :: c :: l))
      with ([a; b; c] :: chunks fuel 3 l).
    cbn [map length] in *.
    assert (Hrec : (length l <= fuel)%nat).
    { apply Nat.succ_le_mono in Hl.
      eapply Nat.le_trans; [|exact Hl].
      do 2 apply Nat.le_le_succ_r. apply Nat.le_refl. }
    specialize (IH l Hrec).
    replace (S (S (S (length l))) + 2)%nat with (length l + 2 + 1 * 3)%nat
      by (rewrite Nat.mul_1_l, <- !Nat.add_assoc; cbn;
          now rewrite !Nat.add_succ_r, Nat.add_0_r).
    rewrite Nat.div_add by discriminate.
    rewrite Nat.mul_add_distr_l, <- IH.
    destruct (chunks fuel 3 l) as [|q qs] eqn:Hq.
    + reflexivity.
    + cbn [map String.concat].
      change (base64.quantum [a; b; c])
        with (String (base64.enc (Z.shiftr
                (Z_of_byte a * 65536 + Z_of_byte b * 256 + Z_of_byte c) 18))
              (String (base64.enc (Z.shiftr
                (Z_of_byte a * 65536 + Z_of_byte b * 256 + Z_of_byte c) 12))
              (String (base64.enc (Z.shiftr
                (Z_of_byte a * 65536 + Z_of_byte b * 256 + Z_of_byte c) 6))
              (String (base64.enc
                (Z_of_byte a * 65536 + Z_of_byte b * 256 + Z_of_byte c))
                 EmptyString)))).
      rewrite !append_cons. cbn [String.length].
      change (String.append EmptyString ?x) with x.
      rewrite (Nat.add_comm _ (4 * 1)). reflexivity.
Qed.

Lemma base64_length (src : bytes) :
  String.length (base64.EncodeToString src)
  = (4 * ((length src + 2) / 3))%nat.
Proof. apply base64_length_fuel, Nat.le_refl. Qed.

Lemma HMAC_SHA512_length (key msg : bytes) :
  length (HMAC_SHA512 key msg) = 64%nat.
Proof. unfold HMAC_SHA512, hmac.rfc2104. apply Sum512_length. Qed.

Lemma length_nonempty (s : string) (n : nat) :
  String.length s = S n -> s <> EmptyString.
Proof. now intros H ->. Qed.

Lemma hashHex_length_64 (token : bytes) :
  String.length (hashHex token) = 64%nat /\ hashHex token <> EmptyString.
Proof.
  assert (H : String.length (hashHex token) = 64%nat).
  { unfold hashHex. now rewrite hex_length, Sum256_length. }
  split; [exact H | exact (length_nonempty _ _ H)].
Qed.

Lemma hash_length_88 (token nonce : string) (body : bytes) :
  String.length (hash token nonce body) = 88%nat.
Proof. now rewrite hash_HMAC_SHA512, base64_length, HMAC_SHA512_length. Qed.

(** ** [hashHex], [hashBase64] and [hash] *)

(** X1.  For every input, [hashHex] returns 64 characters, each of them
    one of [0123456789abcdef]. *)
Theorem hashHex_digits (token : bytes) :
  String.length (hashHex token) = 64%nat
  /\ Forall (fun c => In c (list_ascii_of_string "0123456789abcdef"))
            (list_ascii_of_string (hashHex token)).
Proof.
  split; [apply hashHex_length_64 | apply hex_lowercase].
Qed.

(** X2.  [hashBase64] returns 44 characters and [hash] 88, whatever the
    token, the nonce and the body are; so the value [CACerts] expects in
    [X-Cattle-Hash] is never the empty string. *)
Theorem hash_length (token nonce : string) (body : bytes) :
  String.length (hashBase64 (bytes_of token)) = 44%nat
  /\ String.length (hash token nonce body) = 88%nat
  /\ hash token nonce body <> EmptyString.
Proof.
  pose proof (hash_length_88 token nonce body) as H88.
  split; [|split; [exact H88 | exact (length_nonempty _ _ H88)]].
  unfold hashBase64. now rewrite base64_length, Sum256_length.
Qed.

Lemma bytes_of_string_of (b : bytes) : bytes_of (string_of b) = b.
Proof. apply list_byte_of_string_of_list_byte. Qed.

(** X3.  The zero byte that [hash] writes after the nonce does not tell
    where the nonce ends when the nonce has a zero byte itself: a nonce
    [n 0 m] with the body [b] is authenticated by the same value as the
    nonce [n] with the body [m 0 b]. *)
Theorem hash_separator_shift (token : string) (n m b : bytes) :
  hash token (string_of (n ++ x00 :: m)) b
  = hash token (string_of n) (m ++ x00 :: b).
Proof.
  rewrite !hash_HMAC_SHA512, !bytes_of_string_of. do 2 f_equal.
  now rewrite <- !app_assoc.
Qed.

Lemma framing_injective (n1 n2 b1 b2 : bytes) :
  ~ In x00 n1 -> ~ In x00 n2 ->
  n1 ++ [x00] ++ b1 ++ [x00] = n2 ++ [x00] ++ b2 ++ [x00] ->
  n1 = n2 /\ b1 = b2.
Proof.
  revert n2. induction n1 as [|a n1 IH]; intros [|c n2] H1 H2 Heq;
    cbn [app] in Heq.
  - injection Heq as Heq. split; [reflexivity|].
    now apply app_inv_tail in Heq.
  - injection Heq as <- _. exfalso. apply H2. now left.
  - injection Heq as -> _. exfalso. apply H1. now left.
  - injection Heq as -> Heq.
    destruct (IH n2) as [-> ->]; auto.
    + intros Hin. apply H1. now right.
    + intros Hin. apply H2. now right.
Qed.

(** X4.  [hash] is the base64 of the HMAC-SHA512 of [hash_message], the
    nonce and the body each closed by a zero byte; for nonces without a
    zero byte this message determines the nonce and the body, so two
    different pairs are never authenticated as one message. *)
Theorem hash_message_injective (token n1 n2 : string) (b1 b2 : bytes) :
  ~ In x00 (bytes_of n1) ->
  ~ In x00 (bytes_of n2) ->
  hash token n1 b1
  = base64.EncodeToString
      (HMAC_SHA512 (bytes_of token) (hash_message n1 b1))
  /\ (hash_message n1 b1 = hash_message n2 b2 -> n1 = n2 /\ b1 = b2).
Proof.
  intros H1 H2. split; [apply hash_HMAC_SHA512|].
  unfold hash_message. intros Heq.
  destruct (framing_injective _ _ _ _ H1 H2 Heq) as [Hn ->].
  split; [|reflexivity].
  rewrite <- (string_of_list_byte_of_string n1),
          <- (string_of_list_byte_of_string n2).
  unfold bytes_of in Hn. now rewrite Hn.
Qed.

Lemma hash_message_injective_witness :
  hash "tok" "n0nce" (bytes_of "PEM")
  = base64.EncodeToString
      (HMAC_SHA512 (bytes_of "tok") (hash_message "n0nce" (bytes_of "PEM")))
  /\ (hash_message "n0nce" (bytes_of "PEM")
      = hash_message "n0nce" (bytes_of "PEM") ->
      "n0nce"%string = "n0nce"%string /\ bytes_of "PEM" = bytes_of "PEM").
Proof.
  apply (hash_message_injective "tok" "n0nce" "n0nce" (bytes_of "PEM")
           (bytes_of "PEM"));
    cbn; intros H; repeat (destruct H as [H|H]; [discriminate|]); exact H.
Defined.

(** ** [CACerts]: failures before and during the exchange *)

(** X5.  When the nonce cannot be generated, the server URL does not
    parse, or no request can be built for the endpoint, [CACerts] returns
    that error with a nil bundle and an empty checksum, and no round trip
    is made: the only event of the run is the generation of the nonce. *)
Theorem CACerts_setup_failure
    (E : Env) (server token : string) (clusterToken : bool) (t : Trace) :
  (forall err,
     randomtoken_Generate E t = inr err ->
     CACerts E server token clusterToken t
     = ((None, EmptyString, Some err), t ++ [EvGenerate]))
  /\ (forall nonce err,
        randomtoken_Generate E t = inl nonce ->
        url_Parse E server = inr err ->
        CACerts E server token clusterToken t
        = ((None, EmptyString, Some err), t ++ [EvGenerate]))
  /\ (forall nonce u err,
        randomtoken_Generate E t = inl nonce ->
        url_Parse E server = inl u ->
        http_NewRequest E http.MethodGet
          (requestURL (url.Host u) clusterToken) = inr err ->
        CACerts E server token clusterToken t
        = ((None, EmptyString, Some err), t ++ [EvGenerate])).
Proof.
  split; [|split].
  - intros err Hgen. run. now rewrite Hgen.
  - intros nonce err Hgen Hparse. run. now rewrite Hgen, Hparse.
  - intros nonce u err Hgen Hparse Hreq. run.
    now rewrite Hgen, Hparse, Sprintf_requestURL, Hreq.
Qed.

Lemma Sprintf_insecure_download (url : string) (err : error) :
  fmt.Errorf "insecure cacerts download from %s: %w" [fmt.Str url; fmt.Err err]
  = wrapError
      (String.append "insecure cacerts download from "
         (String.append url (String.append ": " (Error err))))
      err.
Proof.
  unfold fmt.Errorf.
  cbv [fmt.wrapped fmt.Sprintf fmt.render Ascii.eqb Bool.eqb].
  now rewrite append_nil_r.
Qed.

(** X6.  When the probe fails and the round trip of the bootstrap request
    fails too, [CACerts] returns a nil bundle, an empty checksum and an
    error that wraps the error of the round trip: its message is
    [insecure cacerts download from], the URL of the endpoint, a colon and
    the message of that error, and unwrapping it gives that error.  No
    response was received and no body is closed. *)
Theorem CACerts_transport_failure
    (E : Env) (server token : string) (clusterToken : bool) (t : Trace)
    (nonce : string) (u : url.URL) (req : http.Request) (perr berr : error) :
  randomtoken_Generate E t = inl nonce ->
  url_Parse E server = inl u ->
  http_NewRequest E http.MethodGet (requestURL (url.Host u) clusterToken)
  = inl req ->
  Client_Do E (t ++ [EvGenerate]) http.DefaultClient req = inr perr ->
  Client_Do E (t ++ [EvGenerate; EvDo http.DefaultClient req]) insecureClient
    (bootstrapRequest req nonce (sha256.Sum256 (bytes_of token)))
  = inr berr ->
  exists err,
    CACerts E server token clusterToken t
    = ((None, EmptyString, Some err),
       t ++ [EvGenerate; EvDo http.DefaultClient req;
             EvDo insecureClient
               (bootstrapRequest req nonce
                  (sha256.Sum256 (bytes_of token)))])
    /\ Error err
       = String.append "insecure cacerts download from "
           (String.append (requestURL (url.Host u) clusterToken)
              (String.append ": " (Error berr)))
    /\ Unwrap err = Some berr.
Proof.
  intros Hgen Hparse Hreq Hprobe Hboot.
  eexists. split; [|split].
  - run. rewrite Hgen, Hparse, Sprintf_requestURL, Hreq. cbn [fst snd].
    rewrite Hprobe, bootstrapRequest_headers.
    rewrite <- !app_assoc. cbn [app]. rewrite Hboot.
    rewrite Sprintf_insecure_download. reflexivity.
  - reflexivity.
  - reflexivity.
Qed.

Lemma CACerts_transport_failure_witness :
  exists err,
    CACerts (fixture.world (inl "n0nce") (inr fixture.unknownAuthority)
               fixture.refused fixture.hello fixture.passthrough
               fixture.noHardware)
            fixture.rancher "tok" true []
    = ((None, EmptyString, Some err),
       [] ++ [EvGenerate;
              EvDo http.DefaultClient (fixture.cacertsRequest "/cacerts");
              EvDo insecureClient
                (bootstrapRequest (fixture.cacertsRequest "/cacerts") "n0nce"
                   (sha256.Sum256 (bytes_of "tok")))])
    /\ Error err
       = String.append "insecure cacerts download from "
           (String.append
              (requestURL
                 (url.Host (http.URL (fixture.cacertsRequest EmptyString)))
                 true)
              (String.append ": " (Error (errors_New "connection refused"))))
    /\ Unwrap err = Some (errors_New "connection refused").
Proof.
  apply (CACerts_transport_failure
           (fixture.world (inl "n0nce") (inr fixture.unknownAuthority)
              fixture.refused fixture.hello fixture.passthrough
              fixture.noHardware)
           fixture.rancher "tok" true [] "n0nce"
           (http.URL (fixture.cacertsRequest EmptyString))
           (fixture.cacertsRequest "/cacerts")
           fixture.unknownAuthority (errors_New "connection refused"));
    reflexivity.
Defined.

Lemma Sprintf_mismatch (header expected : string) :
  fmt.Sprintf "response hash (%s) does not match (%s)"
              [fmt.Str header; fmt.Str expected]
  = String.append "response hash ("
      (String.append header
         (String.append ") does not match (" (String.append expected ")"))).
Proof. reflexivity. Qed.

(** X7.  A bootstrap response whose [X-Cattle-Hash] header is missing or
    empty is never accepted, whatever its status and its body are, an empty
    body included: [CACerts] returns an error, a nil bundle and an empty
    checksum. *)
Theorem CACerts_missing_hash_header
    (E : Env) (server token : string) (clusterToken : bool) (t : Trace)
    (nonce : string) (req : http.Request) (resp : http.Response) :
  bootstrap_exchange E server token clusterToken t nonce req resp ->
  http.Header_Get (http.RespHeader resp) "X-Cattle-Hash" = EmptyString ->
  exists err,
    fst (CACerts E server token clusterToken t)
    = (None, EmptyString, Some err).
Proof.
  intros Hex Hheader.
  rewrite (CACerts_exchange_run _ _ _ _ _ _ _ _ Hex). cbn [fst].
  destruct (http.readErr (http.RespBody resp)); [eauto|].
  destruct (negb (http.StatusCode resp =? http.StatusOK)); [eauto|].
  rewrite Hheader.
  destruct (String.eqb_spec EmptyString
              (hash token nonce (http.content (http.RespBody resp))))
    as [Heq|Hne]; cbn [negb]; [|eauto].
  exfalso. symmetry in Heq. revert Heq.
  apply (length_nonempty _ 87), hash_length_88.
Qed.

Lemma CACerts_missing_hash_header_witness :
  exists err,
    fst (CACerts (fixture.answering (fixture.ok EmptyString ∅))
                 fixture.rancher "tok" true [])
    = (None, EmptyString, Some err).
Proof.
  apply (CACerts_missing_hash_header
           (fixture.answering (fixture.ok EmptyString ∅))
           fixture.rancher "tok" true [] "n0nce"
           (fixture.cacertsRequest "/cacerts") (fixture.ok EmptyString ∅)
           (answering_exchange (fixture.ok EmptyString ∅) "tok")).
  reflexivity.
Defined.

(** X8.  When the header does not match, the message of the error is
    [response hash (], the header received, [) does not match (], the value
    that was expected and [)]: the error shows the value that would have
    been accepted for this nonce and body. *)
Theorem CACerts_mismatch_message
    (E : Env) (server token : string) (clusterToken : bool) (t : Trace)
    (nonce : string) (req : http.Request) (resp : http.Response) :
  bootstrap_exchange E server token clusterToken t nonce req resp ->
  http.readErr (http.RespBody resp) = None ->
  http.StatusCode resp = http.StatusOK ->
  let header := http.Header_Get (http.RespHeader resp) "X-Cattle-Hash" in
  let expected := hash token nonce (http.content (http.RespBody resp)) in
  header <> expected ->
  exists err,
    fst (CACerts E server token clusterToken t)
    = (None, EmptyString, Some err)
    /\ Error err
       = String.append "response hash ("
           (String.append header
              (String.append ") does not match ("
                 (String.append expected ")")))
    /\ includes expected (Error err) = true
    /\ Unwrap err = None.
Proof.
  intros Hex Hread Hstatus header expected Hne.
  rewrite (CACerts_exchange_run _ _ _ _ _ _ _ _ Hex). cbn [fst].
  rewrite Hread, Hstatus. cbn [negb Z.eqb http.StatusOK Pos.eqb].
  fold header expected.
  destruct (String.eqb_spec header expected) as [Heq|_]; [contradiction|].
  cbn [negb]. eexists. split; [reflexivity|].
  rewrite Errorf_plain by reflexivity. cbn [Error Unwrap].
  rewrite Sprintf_mismatch. repeat split; auto 10 with includes.
Qed.

Lemma CACerts_mismatch_message_witness :
  let resp := fixture.signed "tok" "stale" "PEM" in
  let header := http.Header_Get (http.RespHeader resp) "X-Cattle-Hash" in
  let expected := hash "tok" "n0nce" (http.content (http.RespBody resp)) in
  exists err,
    fst (CACerts (fixture.answering resp) fixture.rancher "tok" true [])
    = (None, EmptyString, Some err)
    /\ Error err
       = String.append "response hash ("
           (String.append header
              (String.append ") does not match ("
                 (String.append expected ")")))
    /\ includes expected (Error err) = true
    /\ Unwrap err = None.
Proof.
  apply (CACerts_mismatch_message
           (fixture.answering (fixture.signed "tok" "stale" "PEM"))
           fixture.rancher "tok" true [] "n0nce"
           (fixture.cacertsRequest "/cacerts")
           (fixture.signed "tok" "stale" "PEM")
           (answering_exchange (fixture.signed "tok" "stale" "PEM") "tok"));
    [reflexivity | reflexivity | vm_compute; discriminate].
Defined.

Lemma CACerts_setup_failure_witness :
  CACerts fixture.trusted "rancher.example" "tok" true []
  = ((None, EmptyString,
      Some (errors_New "first path segment in URL cannot contain colon")),
     [] ++ [EvGenerate]).
Proof.
  apply (proj1 (proj2 (CACerts_setup_failure fixture.trusted
                         "rancher.example" "tok" true []))
           "n0nce"%string);
    reflexivity.
Defined.

(** ** What [CACerts] returns, in every run *)

Lemma CACerts_nil_checksum
    (E : Env) (server token : string) (clusterToken : bool) (t : Trace)
    (checksum : string) (err : option error) :
  fst (CACerts E server token clusterToken t) = (None, checksum, err) ->
  checksum = EmptyString.
Proof.
  run.
  destruct (randomtoken_Generate E t) as [nonce|]; cbn [fst];
    [|now intros [= <- _]].
  destruct (url_Parse E server) as [u|]; cbn [fst]; [|now intros [= <- _]].
  destruct (http_NewRequest E http.MethodGet _) as [req|]; cbn [fst snd];
    [|now intros [= <- _]].
  destruct (Client_Do E (t ++ [EvGenerate]) http.DefaultClient req);
    cbn [fst]; [now intros [= <- _]|].
  destruct (Client_Do E _ insecureClient _) as [resp|]; cbn [fst];
    [|now intros [= <- _]].
  destruct (http.readErr (http.RespBody resp)); cbn [fst];
    [now intros [= <- _]|].
  destruct (negb (http.StatusCode resp =? http.StatusOK)); cbn [fst];
    [now intros [= <- _]|].
  destruct (negb (String.eqb _ _)); cbn [fst]; [now intros [= <- _]|].
  destruct (length _ =? 0)%nat; cbn [fst]; [now intros [= <- _]|discriminate].
Qed.

(** X9.  In every run of [CACerts], whatever the servers answer: the
    checksum is empty exactly when the bundle is nil; a bundle that is
    returned is not empty, comes without error, and its checksum is
    [hashHex] of the bundle, 64 characters long. *)
Theorem CACerts_bundle_checksum
    (E : Env) (server token : string) (clusterToken : bool) (t : Trace) :
  let '(bundle, checksum, err) := fst (CACerts E server token clusterToken t) in
  (bundle = None <-> checksum = EmptyString)
  /\ forall pem,
       bundle = Some pem ->
       pem <> [] /\ checksum = hashHex pem
       /\ String.length checksum = 64%nat /\ err = None.
Proof.
  destruct (fst (CACerts E server token clusterToken t))
    as [[bundle checksum] err] eqn:Hrun.
  destruct bundle as [pem|].
  - destruct (CACerts_bundle_not_empty _ _ _ _ _ _ _ _ Hrun)
      as (Hpem & -> & ->).
    pose proof (proj1 (hashHex_length_64 pem)) as Hlen.
    split.
    + split; [discriminate|]. intros Hempty. now rewrite Hempty in Hlen.
    + intros pem' [= <-]. auto.
  - rewrite (CACerts_nil_checksum _ _ _ _ _ _ _ Hrun).
    split; [tauto | discriminate].
Qed.

Lemma CACerts_bundle_checksum_witness :
  bytes_of "PEM" <> []
  /\ hashHex (bytes_of "PEM") = hashHex (bytes_of "PEM")
  /\ String.length (hashHex (bytes_of "PEM")) = 64%nat
  /\ @None error = None.
Proof.
  pose proof (CACerts_bundle_checksum (fixture.untrusted "tok" "PEM")
                fixture.rancher "tok" true []) as H.
  assert (Hrun :
    fst (CACerts (fixture.untrusted "tok" "PEM") fixture.rancher "tok" true [])
    = (Some (bytes_of "PEM"), hashHex (bytes_of "PEM"), None))
    by (vm_compute; reflexivity).
  rewrite Hrun in H. exact (proj2 H (bytes_of "PEM") eq_refl).
Defined.

(** ** Every event of a run of [get] *)

Lemma skipn_prefix {A} (t ev : list A) : skipn (length t) (t ++ ev) = ev.
Proof. now rewrite skipn_app, skipn_all, Nat.sub_diag. Qed.

Lemma CACerts_events_In
    (E : Env) (server token : string) (clusterToken : bool) (t : Trace)
    (e : Event) :
  In e (CACerts_events E server token clusterToken t) ->
  e = EvGenerate
  \/ (exists req, e = EvDo http.DefaultClient req)
  \/ (exists req nonce,
        e = EvDo insecureClient
              (bootstrapRequest req nonce (sha256.Sum256 (bytes_of token))))
  \/ (exists resp, e = EvBodyClose resp).
Proof.
  unfold CACerts_events. intros [<-|H]; [now left|]. right. revert H.
  destruct (randomtoken_Generate E t) as [nonce|]; [|intros []].
  destruct (url_Parse E server) as [u|]; [|intros []].
  destruct (http_NewRequest E http.MethodGet _) as [req|]; [|intros []].
  intros [<-|H]; [left; eauto|]. right. revert H.
  destruct (Client_Do E (t ++ [EvGenerate]) http.DefaultClient req).
  - intros [<-|[]]. right. eauto.
  - intros [<-|H]; [left; eauto|]. right. revert H.
    destruct (Client_Do E _ insecureClient _); [|intros []].
    intros [<-|[]]. eauto.
Qed.

Lemma get_events
    (E : Env) (server token path : string) (clusterToken : bool) (t : Trace) :
  Forall (get_event E server token clusterToken)
         (added (get E server token path clusterToken) t).
Proof.
  assert (Hca : forall tok t1,
            Forall (get_event E server token clusterToken)
                   (CACerts_events E server tok clusterToken t1)).
  { intros tok t1. apply List.Forall_forall. intros e He.
    exact (get_bootstraps _ _ _ _ tok t1 e He). }
  unfold added. run_get.
  destruct (url_Parse E server) as [u|]; cbn [snd];
    [|rewrite skipn_all; constructor].
  destruct clusterToken; cbn [negb]; cbv beta iota zeta.
  - pose proof (CACerts_snd E server token true t) as Hsnd.
    destruct (CACerts E server token true t) as [[[cacert cs] cerr] t2].
    cbn [snd] in Hsnd. subst t2.
    destruct cerr as [err|]; cbn [snd]; [now rewrite skipn_prefix|].
    destruct (http_NewRequest E http.MethodGet _) as [req|]; cbn [snd];
      [|now rewrite skipn_prefix].
    destruct (len cacert =? 0)%nat eqn:Hlen.
    + destruct (Client_Do E _ http.DefaultClient req); cbn [snd];
        rewrite <- app_assoc, skipn_prefix; apply Forall_app; (split; [auto|]);
        repeat constructor;
        apply (get_fetches _ _ _ _ cacert); unfold fetchClient;
        now rewrite Hlen.
    + apply Nat.eqb_neq in Hlen.
      match goal with
      | |- context [Client_Do ?e ?tr ?c ?r] => destruct (Client_Do e tr c r)
      end; cbn [snd];
        rewrite <- !app_assoc, skipn_prefix; apply Forall_app; (split; [auto|]);
        cbn [app]; repeat constructor.
      all: try (apply (get_fetches _ _ _ _ cacert); unfold fetchClient;
                apply Nat.eqb_neq in Hlen; now rewrite Hlen).
      all: now apply (get_releases _ _ _ _ cacert).
  - destruct (tpm_ResolveToken E t token) as [[isTPM tok] [rerr|]]; cbn [snd].
    { rewrite skipn_prefix. repeat constructor. }
    pose proof (CACerts_snd E server tok false (t ++ [EvResolveToken token]))
      as Hsnd.
    destruct (CACerts E server tok false (t ++ [EvResolveToken token]))
      as [[[cacert cs] cerr] t2].
    cbn [snd] in Hsnd. subst t2.
    assert (Hpre : Forall (get_event E server token false)
                     ([EvResolveToken token]
                      ++ CACerts_events E server tok false
                           (t ++ [EvResolveToken token]))).
    { apply Forall_app. split; [repeat constructor | apply Hca]. }
    destruct cerr as [err|]; cbn [snd];
      [now rewrite <- app_assoc, skipn_prefix|].
    destruct isTPM.
    { destruct (tpm_Get E _ cacert _); cbn [snd].
      rewrite <- !app_assoc, skipn_prefix, app_assoc.
      apply Forall_app. split; [exact Hpre|]. repeat constructor. }
    destruct (http_NewRequest E http.MethodGet _) as [req|]; cbn [snd];
      [|now rewrite <- app_assoc, skipn_prefix].
    destruct (len cacert =? 0)%nat eqn:Hlen.
    + match goal with
      | |- context [Client_Do ?e ?tr ?c ?r] => destruct (Client_Do e tr c r)
      end; cbn [snd];
        rewrite <- !app_assoc, skipn_prefix, app_assoc;
        apply Forall_app; (split; [exact Hpre|]);
        repeat constructor;
        apply (get_fetches _ _ _ _ cacert); unfold fetchClient;
        now rewrite Hlen.
    + apply Nat.eqb_neq in Hlen.
      match goal with
      | |- context [Client_Do ?e ?tr ?c ?r] => destruct (Client_Do e tr c r)
      end; cbn [snd];
        rewrite <- !app_assoc, skipn_prefix, app_assoc;
        apply Forall_app; (split; [exact Hpre|]);
        cbn [app]; repeat constructor.
      all: try (apply (get_fetches _ _ _ _ cacert); unfold fetchClient;
                apply Nat.eqb_neq in Hlen; now rewrite Hlen).
      all: now apply (get_releases _ _ _ _ cacert).
Qed.

(** ** [Get] and [MachineGet] *)

(** X10.  [Get], the entry point for a cluster token, never goes to the
    hardware: no run of it resolves the token through the TPM or retrieves
    the resource through it. *)
Theorem Get_no_hardware
    (E : Env) (server token path : string) (t : Trace) :
  Forall (fun e => isHardware e = false) (added (Get E server token path) t).
Proof.
  unfold Get.
  eapply List.Forall_impl; [|apply get_events].
  intros e [Hct | tok t1 e' He | cacert url Hct | cacert c req _
            | cacert c _ _]; try discriminate; try reflexivity.
  destruct (CACerts_events_In _ _ _ _ _ _ He)
    as [->|[(req & ->)|[(req & nonce & ->)|(resp & ->)]]]; reflexivity.
Qed.




(** X12.  [get] fails before the bootstrap without contacting anybody.
    When the server URL does not parse, it returns the error of the parser
    with a nil body and an empty checksum and does nothing else: the token
    is not even resolved.  When the URL parses and the token given to
    [MachineGet] does not resolve, it returns that error after the
    resolution alone: [CACerts] is not run and no nonce is generated. *)
Theorem get_fails_before_bootstrap
    (E : Env) (server token path : string) (t : Trace) :
  (forall (clusterToken : bool) (err : error),
     url_Parse E server = inr err ->
     get E server token path clusterToken t
     = ((None, EmptyString, Some err), t))
  /\ (forall (u : url.URL) (isTPM : bool) (tok : string) (err : error),
        url_Parse E server = inl u ->
        tpm_ResolveToken E t token = (isTPM, tok, Some err) ->
        MachineGet E server token path t
        = ((None, EmptyString, Some err), t ++ [EvResolveToken token])).
Proof.
  split.
  - intros clusterToken err Hparse. run_get. now rewrite Hparse.
  - intros u isTPM tok err Hparse Hres. unfold MachineGet. run_get.
    rewrite Hparse. cbn [negb]. now rewrite Hres.
Qed.

Lemma get_fails_before_bootstrap_witness :
  MachineGet
    (fixture.world (inl "n0nce") (inr fixture.unknownAuthority)
       (fixture.signing "tok" "PEM") fixture.hello
       (fun _ => (true, EmptyString, Some (errors_New "tpm: no device")))
       fixture.noHardware)
    fixture.rancher "tpm://ek" "/v1-rancheros/registration" []
  = ((None, EmptyString, Some (errors_New "tpm: no device")),
     [] ++ [EvResolveToken "tpm://ek"]).
Proof.
  apply (proj2 (get_fails_before_bootstrap _ fixture.rancher "tpm://ek"
                  "/v1-rancheros/registration" [])
           (http.URL (fixture.cacertsRequest EmptyString)) true EmptyString);
    reflexivity.
Defined.

(** X13.  When [CACerts] fails, [get] returns the error of [CACerts] as it
    is, with a nil body and an empty checksum, and stops there: the run
    ends with the events of [CACerts], so neither the resource is fetched
    nor the hardware asked for it. *)
Theorem get_CACerts_error
    (E : Env) (server token path : string) (clusterToken : bool) (t : Trace)
    (u : url.URL) (isTPM : bool) (tok : string) (t1 : Trace)
    (bundle : slice) (checksum : string) (err : error) :
  url_Parse E server = inl u ->
  (if negb clusterToken
   then (tpm_ResolveToken E t token, t ++ [EvResolveToken token])
   else ((false, token, None), t))
  = ((isTPM, tok, None), t1) ->
  fst (CACerts E server tok clusterToken t1) = (bundle, checksum, Some err) ->
  get E server token path clusterToken t
  = ((None, EmptyString, Some err),
     t1 ++ CACerts_events E server tok clusterToken t1).
Proof.
  intros Hparse Hres Hca.
  pose proof (CACerts_snd E server tok clusterToken t1) as Hsnd.
  run_get. rewrite Hparse.
  destruct clusterToken; cbn [negb] in *.
  - injection Hres as <- <- <-.
    destruct (CACerts E server token true t) as [r t2]. cbn [fst snd] in *.
    now subst r t2.
  - injection Hres as -> <-.
    destruct (CACerts E server tok false (t ++ [EvResolveToken token]))
      as [r t2]. cbn [fst snd] in *.
    now subst r t2.
Qed.

Lemma get_CACerts_error_witness :
  get (fixture.answering fixture.notFound) fixture.rancher "tok"
      "/v1/settings" true []
  = ((None, EmptyString,
      Some (errors_New
              "response 404: 404 Not Found getting cacerts: 404 page not found")),
     [] ++ CACerts_events (fixture.answering fixture.notFound) fixture.rancher
             "tok" true []).
Proof.
  apply (get_CACerts_error (fixture.answering fixture.notFound)
           fixture.rancher "tok" "/v1/settings" true []
           (http.URL (fixture.cacertsRequest EmptyString)) false "tok" []
           None EmptyString);
    [reflexivity | reflexivity | vm_compute; reflexivity].
Defined.

(** X14.  When the round trip for the resource fails, [get] returns the
    error of the round trip as it is (it is not wrapped, unlike in
    [CACerts]) with a nil body and an empty checksum: the checksum of the
    bundle that [CACerts] returned is dropped. *)
Theorem get_transport_error
    (E : Env) (server token path : string) (clusterToken : bool) (t : Trace)
    (tok : string) (cacert : slice) (caChecksum : string) (t2 : Trace)
    (req : http.Request) (err : error) :
  fetch_prepared E server token path clusterToken t tok cacert caChecksum t2
                 req ->
  Client_Do E t2 (fetchClient cacert)
    (if negb clusterToken
     then http.Request_Set req "Authorization"
            (String.append "Bearer " (base64.EncodeToString (bytes_of tok)))
     else req)
  = inr err ->
  fst (get E server token path clusterToken t)
  = (None, EmptyString, Some err).
Proof.
  intros Hprep Hdo.
  rewrite (get_fetch_run _ _ _ _ _ _ _ _ _ _ _ Hprep). cbn [fst].
  now rewrite Hdo.
Qed.

Lemma get_transport_error_witness :
  fst (get (fixture.fetching "tok" "PEM" (inr fixture.unknownAuthority))
           fixture.rancher "tok" "/v1/settings" false [])
  = (None, EmptyString, Some fixture.unknownAuthority).
Proof.
  apply (get_transport_error _ _ _ _ _ _ _ _ _ _ _ _
           (fetching_prepared (inr fixture.unknownAuthority))).
  reflexivity.
Defined.

(** X15.  [get] does not close the body of the response to the request
    for the resource: after the events of [CACerts], a run only sends the
    request and, for a client of its own, releases the idle connections. *)
Theorem get_body_left_open
    (E : Env) (server token path : string) (clusterToken : bool) (t : Trace)
    (tok : string) (cacert : slice) (caChecksum : string) (t2 : Trace)
    (req : http.Request) :
  fetch_prepared E server token path clusterToken t tok cacert caChecksum t2
                 req ->
  Forall (fun e => isBodyClose e = false)
         (skipn (length t2) (snd (get E server token path clusterToken t))).
Proof.
  intros Hprep.
  rewrite (get_fetch_run _ _ _ _ _ _ _ _ _ _ _ Hprep). cbn [snd].
  rewrite skipn_prefix.
  destruct (len cacert =? 0)%nat; repeat constructor.
Qed.

Lemma get_body_left_open_witness :
  Forall (fun e => isBodyClose e = false)
         (skipn
            (length (EvResolveToken "tok"
                       :: fixture.bootstrapTrace "tok" "PEM"
                            "/v1-rancheros/cacerts"))
            (snd (get (fixture.fetching "tok" "PEM"
                         (inl (fixture.ok "hello" ∅)))
                      fixture.rancher "tok" "/v1/settings" false []))).
Proof.
  exact (get_body_left_open _ _ _ _ _ _ _ _ _ _ _
           (fetching_prepared (inl (fixture.ok "hello" ∅)))).
Defined.

(** ** [ToFile] *)

(** X16.  When [CACerts] fails, [ToFile] returns no descriptor and the
    error of [CACerts] as it is.  It always asks for the cluster-scoped
    endpoint: its events are those of [CACerts] for a cluster token. *)
Theorem ToFile_error
    (E : Env) (server token : string) (t : Trace) (bundle : slice)
    (checksum : string) (err : error) :
  fst (CACerts E server token true t) = (bundle, checksum, Some err) ->
  ToFile E server token t
  = ((None, Some err), t ++ CACerts_events E server token true t).
Proof.
  intros Hca. pose proof (CACerts_snd E server token true t) as Hsnd.
  unfold ToFile, bind, ret.
  destruct (CACerts E server token true t) as [r t2]. cbn [fst snd] in *.
  now subst r t2.
Qed.

Lemma ToFile_error_witness :
  ToFile (fixture.answering fixture.notFound) fixture.rancher "tok" []
  = ((None,
      Some (errors_New
              "response 404: 404 Not Found getting cacerts: 404 page not found")),
     [] ++ CACerts_events (fixture.answering fixture.notFound) fixture.rancher
             "tok" true []).
Proof.
  apply (ToFile_error (fixture.answering fixture.notFound) fixture.rancher
           "tok" [] None EmptyString).
  vm_compute. reflexivity.
Defined.

(** X17.  When [CACerts] returns a bundle, [ToFile] returns a nil error and
    a descriptor for [/etc/pki/trust/anchors/additional-ca.pem] with
    permissions [0644] whose content is the padded base64 of the bundle:
    four characters for every three bytes, rounded up, and not empty. *)
Theorem ToFile_bundle
    (E : Env) (server token : string) (t : Trace) (pem : bytes)
    (checksum : string) (err : option error) :
  fst (CACerts E server token true t) = (Some pem, checksum, err) ->
  ToFile E server token t
  = ((Some {| applyinator.Content := base64.EncodeToString pem;
              applyinator.Path := "/etc/pki/trust/anchors/additional-ca.pem";
              applyinator.Permissions := "0644" |},
      None),
     t ++ CACerts_events E server token true t)
  /\ String.length (base64.EncodeToString pem)
     = (4 * ((length pem + 2) / 3))%nat
  /\ base64.EncodeToString pem <> EmptyString.
Proof.
  intros Hca.
  destruct (CACerts_bundle_not_empty _ _ _ _ _ _ _ _ Hca) as (Hpem & _ & ->).
  pose proof (CACerts_snd E server token true t) as Hsnd.
  split; [|split].
  - unfold ToFile, bind, ret.
    destruct (CACerts E server token true t) as [r t2]. cbn [fst snd] in *.
    now subst r t2.
  - apply base64_length.
  - destruct pem as [|b pem]; [contradiction|].
    intros Hempty.
    pose proof (base64_length (b :: pem)) as Hlen.
    rewrite Hempty in Hlen. cbn [String.length length] in Hlen.
    replace (S (length pem) + 2)%nat with (length pem + 1 * 3)%nat in Hlen
      by lia.
    rewrite Nat.div_add in Hlen by discriminate.
    rewrite Nat.add_comm in Hlen. discriminate.
Qed.

Lemma ToFile_bundle_witness :
  ToFile (fixture.untrusted "tok" "PEM") fixture.rancher "tok" []
  = ((Some {| applyinator.Content := base64.EncodeToString (bytes_of "PEM");
              applyinator.Path := "/etc/pki/trust/anchors/additional-ca.pem";
              applyinator.Permissions := "0644" |},
      None),
     [] ++ CACerts_events (fixture.untrusted "tok" "PEM") fixture.rancher
             "tok" true [])
  /\ String.length (base64.EncodeToString (bytes_of "PEM"))
     = (4 * ((length (bytes_of "PEM") + 2) / 3))%nat
  /\ base64.EncodeToString (bytes_of "PEM") <> EmptyString.
Proof.
  apply (ToFile_bundle (fixture.untrusted "tok" "PEM") fixture.rancher "tok"
           [] (bytes_of "PEM") (hashHex (bytes_of "PEM")) None).
  vm_compute. reflexivity.
Defined.

(** * Package [rancher]: [UpdateClientSecret] *)

Lemma Kubeconfig_option (opts : option rancher.Options) :
  rancher.Kubeconfig
    match opts with
    | None => {| rancher.Kubeconfig := EmptyString |}
    | Some o => o
    end
  = rancher.kubeconfigOption opts.
Proof. now destruct opts. Qed.

Section UpdateClientSecret.
Variables Context Config Interface Clientset : Type.
Variable E : rancher.Kube Context Config Interface Clientset.
Variable ctx : Context.
Variable opts : option rancher.Options.
Variable t : rancher.Log.

Ltac run_update :=
  unfold rancher.UpdateClientSecret, rancher.then_, rancher.call,
    rancher.check, rancher.orDie, rancher.assertString, rancher.log,
    rancher.setData, rancher.return_, rancher.next, rancher.DeepCopy;
  cbv beta zeta;
  rewrite ?Kubeconfig_option.

Ltac flat := rewrite <- ?app_assoc; cbn [app].

(** The run up to the test of the two settings. *)
Lemma UpdateClientSecret_settings_run
    (kubeconfig serverURL caCerts : string) :
  let path := rancher.kubeconfigOption opts in
  rancher.settings_read E ctx path t kubeconfig serverURL caCerts ->
  let t1 := t ++ rancher.settingsRead path kubeconfig serverURL caCerts in
  rancher.UpdateClientSecret E ctx opts t
  = rancher.finish
      (if String.eqb serverURL EmptyString || String.eqb caCerts EmptyString
       then (rancher.Return (Some rancher.notConfigured), t1)
       else
         match rancher.ioutil_ReadFile E t1 kubeconfig with
         | inr err => (rancher.Return (Some err),
                       t1 ++ [rancher.EvReadFile kubeconfig])
         | inl data =>
           match rancher.clientcmd_RESTConfigFromKubeConfig E data with
           | inr err => (rancher.Return (Some err),
                         t1 ++ [rancher.EvReadFile kubeconfig])
           | inl restConfig =>
             match rancher.kubernetes_NewForConfig E restConfig with
             | inr err => (rancher.Return (Some err),
                           t1 ++ [rancher.EvReadFile kubeconfig])
             | inl k8s =>
               let t2 :=
                 t1 ++ [rancher.EvReadFile kubeconfig;
                        rancher.EvSecretGet "fleet-local" "local-kubeconfig"] in
               match rancher.Secrets_Get E
                       (t1 ++ [rancher.EvReadFile kubeconfig]) k8s
                       "fleet-local" ctx "local-kubeconfig" with
               | inr err => (rancher.Return (Some err), t2)
               | inl secret =>
                 match rancher.Data secret with
                 | None => (rancher.Panic rancher.panicNilMap, t2)
                 | Some d =>
                   let toUpdate :=
                     rancher.updated secret d serverURL caCerts in
                   let answer :=
                     rancher.Secrets_Update E t2 k8s "fleet-local" ctx
                       toUpdate in
                   (rancher.Return answer,
                    t2 ++ rancher.EvSecretUpdate "fleet-local" toUpdate
                       :: match answer with
                          | None =>
                            [rancher.EvPrintln
                               "Cluster client secret is updated."]
                          | Some _ => []
                          end)
                 end
               end
             end
           end
         end).
Proof.
  intros path (conf & client & s1 & s2 & Hk & Hconf & Hclient & Hs1 & Hv1
               & Hs2 & Hv2) t1.
  subst path t1. run_update.
  rewrite Hk, Hconf, Hclient.
  flat. rewrite Hs1, Hv1.
  flat. rewrite Hs2, Hv2.
  unfold rancher.settingsRead. flat.
  destruct (String.eqb serverURL EmptyString || String.eqb caCerts EmptyString);
    [reflexivity|].
  f_equal.
  destruct (rancher.ioutil_ReadFile E _ kubeconfig) as [data|];
    [|flat; reflexivity].
  destruct (rancher.clientcmd_RESTConfigFromKubeConfig E data)
    as [restConfig|]; [|flat; reflexivity].
  destruct (rancher.kubernetes_NewForConfig E restConfig) as [k8s|];
    [|flat; reflexivity].
  cbv zeta. flat.
  destruct (rancher.Secrets_Get E _ k8s _ ctx _) as [secret|];
    [|flat; reflexivity].
  destruct (rancher.Data secret) as [d|] eqn:Hd; cbn [rancher.Data];
    [|flat; reflexivity].
  unfold rancher.updated. flat.
  destruct (rancher.Secrets_Update E _ k8s _ ctx _); flat; reflexivity.
Qed.
End UpdateClientSecret.

Lemma logged_app {A} (m : rancher.Log -> A * rancher.Log)
    (t ev : rancher.Log) :
  snd (m t) = t ++ ev -> rancher.logged m t = ev.
Proof. unfold rancher.logged. intros ->. apply skipn_prefix. Qed.

Ltac early :=
  right; cbn [rancher.finish fst snd];
  split; [discriminate|];
  rewrite <- ?app_assoc; rewrite skipn_prefix; repeat constructor.

(** A run either reads both settings as strings, or ends before: then it
    does not return nil and has touched neither the file nor the secret. *)
Lemma UpdateClientSecret_early
    {Context Config Interface Clientset : Type}
    (E : rancher.Kube Context Config Interface Clientset) (ctx : Context)
    (opts : option rancher.Options) (t : rancher.Log) :
  (exists kubeconfig serverURL caCerts,
     rancher.settings_read E ctx (rancher.kubeconfigOption opts) t kubeconfig
       serverURL caCerts)
  \/ (fst (rancher.UpdateClientSecret E ctx opts t) <> inl None
      /\ Forall (fun c => rancher.beforeSecret c = true)
                (rancher.logged (rancher.UpdateClientSecret E ctx opts) t)).
Proof.
  unfold rancher.settings_read, rancher.logged.
  unfold rancher.UpdateClientSecret, rancher.then_, rancher.call,
    rancher.check, rancher.orDie, rancher.assertString, rancher.log,
    rancher.setData, rancher.return_, rancher.next, rancher.DeepCopy.
  cbv beta zeta. rewrite ?Kubeconfig_option.
  set (path := rancher.kubeconfigOption opts).
  destruct (rancher.kubectl_GetKubeconfig E t path) as [kubeconfig|] eqn:Hk;
    [|early].
  destruct (rancher.clientcmd_BuildConfigFromFlags E _ EmptyString kubeconfig)
    as [conf|] eqn:Hconf; [|early].
  destruct (rancher.dynamic_NewForConfig E conf) as [client|] eqn:Hclient;
    [|early].
  rewrite <- ?app_assoc. cbn [app].
  destruct (rancher.Resource_Get E _ client rancher.settings ctx
              "internal-server-url") as [s1|] eqn:Hs1; [|early].
  destruct (rancher.index (rancher.Object s1) "value") eqn:Hv1; try early.
  rewrite <- ?app_assoc. cbn [app].
  destruct (rancher.Resource_Get E _ client rancher.settings ctx
              "internal-cacerts") as [s2|] eqn:Hs2; [|early].
  destruct (rancher.index (rancher.Object s2) "value") eqn:Hv2; try early.
  left. eauto 15.
Qed.

(** The test cluster reads its settings. *)
Lemma cluster_settings_read (serverURL caCerts : string)
    (secret : rancher.Secret + error) (answer : option error) :
  rancher.settings_read
    (rancher.double.cluster (rancher.VString serverURL)
       (rancher.VString caCerts) secret answer)
    tt EmptyString [] "/etc/rancher/rke2/rke2.yaml" serverURL caCerts.
Proof. exists tt, tt. eexists _, _. repeat split; reflexivity. Qed.

Lemma cluster_secret_read (serverURL caCerts : rancher.Value)
    (secret : rancher.Secret) (answer : option error) (t1 : rancher.Log) :
  rancher.secret_read
    (rancher.double.cluster serverURL caCerts (inl secret) answer)
    tt t1 "/etc/rancher/rke2/rke2.yaml" tt secret.
Proof. exists (bytes_of "apiVersion: v1"), tt. repeat split; reflexivity. Qed.



Lemma eqb_empty_false (a b : string) :
  a <> EmptyString -> b <> EmptyString ->
  String.eqb a EmptyString || String.eqb b EmptyString = false.
Proof.
  intros Ha Hb.
  destruct (String.eqb_spec a EmptyString); [contradiction|].
  destruct (String.eqb_spec b EmptyString); [contradiction|]. reflexivity.
Qed.

(** X19.  When both settings are configured and the secret
    [fleet-local/local-kubeconfig] is read with data, the function sends
    one update, of that secret with [apiServerURL] set to the bytes of the
    setting [internal-server-url] and [apiServerCA] to those of
    [internal-cacerts]; every other entry and every other field of the
    secret is as it was read.  It returns what the update returned, and
    prints that the secret is updated only when that is nil. *)
Theorem UpdateClientSecret_updates
    {Context Config Interface Clientset : Type}
    (E : rancher.Kube Context Config Interface Clientset) (ctx : Context)
    (opts : option rancher.Options) (t : rancher.Log)
    (kubeconfig serverURL caCerts : string) (k8s : Clientset)
    (secret : rancher.Secret) (d : gmap string bytes) :
  let path := rancher.kubeconfigOption opts in
  let t1 := t ++ rancher.settingsRead path kubeconfig serverURL caCerts in
  rancher.settings_read E ctx path t kubeconfig serverURL caCerts ->
  serverURL <> EmptyString ->
  caCerts <> EmptyString ->
  rancher.secret_read E ctx t1 kubeconfig k8s secret ->
  rancher.Data secret = Some d ->
  exists (toUpdate : rancher.Secret) (d' : gmap string bytes),
    let t2 := t1 ++ [rancher.EvReadFile kubeconfig;
                     rancher.EvSecretGet "fleet-local" "local-kubeconfig"] in
    let answer :=
      rancher.Secrets_Update E t2 k8s "fleet-local" ctx toUpdate in
    rancher.UpdateClientSecret E ctx opts t
    = (inl answer,
       t2 ++ rancher.EvSecretUpdate "fleet-local" toUpdate
          :: match answer with
             | None => [rancher.EvPrintln "Cluster client secret is updated."]
             | Some _ => []
             end)
    /\ rancher.Data toUpdate = Some d'
    /\ d' !! "apiServerURL" = Some (bytes_of serverURL)
    /\ d' !! "apiServerCA" = Some (bytes_of caCerts)
    /\ (forall key, key <> "apiServerURL"%string ->
                    key <> "apiServerCA"%string -> d' !! key = d !! key)
    /\ rancher.Meta toUpdate = rancher.Meta secret
    /\ rancher.Immutable toUpdate = rancher.Immutable secret
    /\ rancher.StringData toUpdate = rancher.StringData secret
    /\ rancher.SecretType toUpdate = rancher.SecretType secret.
Proof.
  intros path t1 Hread Hurl Hca (data & restConfig & Hfile & Hrest & Hk8s
                                 & Hget) Hd.
  exists (rancher.updated secret d serverURL caCerts).
  eexists. cbv zeta. split; [|split; [reflexivity|]].
  - rewrite (UpdateClientSecret_settings_run _ _ _ _ E ctx opts t kubeconfig
               serverURL caCerts Hread).
    rewrite (eqb_empty_false _ _ Hurl Hca).
    fold path t1. rewrite Hfile, Hrest, Hk8s. cbv zeta. rewrite Hget, Hd.
    reflexivity.
  - split; [|split; [|split]].
    + rewrite lookup_insert_ne by discriminate. apply lookup_insert_eq.
    + apply lookup_insert_eq.
    + intros key H1 H2.
      rewrite lookup_insert_ne by congruence.
      now rewrite lookup_insert_ne by congruence.
    + repeat split.
Qed.

Lemma UpdateClientSecret_updates_witness :
  exists (toUpdate : rancher.Secret) (d' : gmap string bytes),
    fst (rancher.UpdateClientSecret
           (rancher.double.cluster (rancher.VString "https://10.0.0.2")
              (rancher.VString "PEM")
              (inl (rancher.double.localKubeconfig
                      (Some {["token" := bytes_of "s3cret"]})))
              None)
           tt None [])
    = inl None
    /\ In (rancher.EvSecretUpdate "fleet-local" toUpdate)
          (snd (rancher.UpdateClientSecret
                  (rancher.double.cluster (rancher.VString "https://10.0.0.2")
                     (rancher.VString "PEM")
                     (inl (rancher.double.localKubeconfig
                             (Some {["token" := bytes_of "s3cret"]})))
                     None)
                  tt None []))
    /\ rancher.Data toUpdate = Some d'
    /\ d' !! "apiServerURL" = Some (bytes_of "https://10.0.0.2")
    /\ d' !! "apiServerCA" = Some (bytes_of "PEM")
    /\ d' !! "token" = Some (bytes_of "s3cret").
Proof.
  destruct (UpdateClientSecret_updates
              (rancher.double.cluster (rancher.VString "https://10.0.0.2")
                 (rancher.VString "PEM")
                 (inl (rancher.double.localKubeconfig
                         (Some {["token" := bytes_of "s3cret"]})))
                 None)
              tt None [] "/etc/rancher/rke2/rke2.yaml" "https://10.0.0.2"
              "PEM" tt
              (rancher.double.localKubeconfig
                 (Some {["token" := bytes_of "s3cret"]}))
              {["token" := bytes_of "s3cret"]}
              (cluster_settings_read _ _ _ _)
              ltac:(discriminate) ltac:(discriminate)
              (cluster_secret_read _ _ _ _ _) eq_refl)
    as (toUpdate & d' & Hrun & Hd & Hurl & Hca & Hrest & _).
  exists toUpdate, d'. rewrite Hrun. cbn [fst snd].
  split; [reflexivity|].
  split; [rewrite !in_app_iff; right; now left|].
  split; [exact Hd|]. split; [exact Hurl|]. split; [exact Hca|].
  rewrite Hrest by discriminate. reflexivity.
Defined.

(** X20.  When the secret that is read has no data (its map is nil), the
    function panics on the first assignment: it returns no error and sends
    no update. *)
Theorem UpdateClientSecret_nil_data
    {Context Config Interface Clientset : Type}
    (E : rancher.Kube Context Config Interface Clientset) (ctx : Context)
    (opts : option rancher.Options) (t : rancher.Log)
    (kubeconfig serverURL caCerts : string) (k8s : Clientset)
    (secret : rancher.Secret) :
  let path := rancher.kubeconfigOption opts in
  let t1 := t ++ rancher.settingsRead path kubeconfig serverURL caCerts in
  rancher.settings_read E ctx path t kubeconfig serverURL caCerts ->
  serverURL <> EmptyString ->
  caCerts <> EmptyString ->
  rancher.secret_read E ctx t1 kubeconfig k8s secret ->
  rancher.Data secret = None ->
  rancher.UpdateClientSecret E ctx opts t
  = (inr rancher.panicNilMap,
     t1 ++ [rancher.EvReadFile kubeconfig;
            rancher.EvSecretGet "fleet-local" "local-kubeconfig"]).
Proof.
  intros path t1 Hread Hurl Hca (data & restConfig & Hfile & Hrest & Hk8s
                                 & Hget) Hd.
  rewrite (UpdateClientSecret_settings_run _ _ _ _ E ctx opts t kubeconfig
             serverURL caCerts Hread).
  rewrite (eqb_empty_false _ _ Hurl Hca).
  fold path t1. rewrite Hfile, Hrest, Hk8s. cbv zeta. rewrite Hget, Hd.
  reflexivity.
Qed.

Lemma UpdateClientSecret_nil_data_witness :
  rancher.UpdateClientSecret
    (rancher.double.cluster (rancher.VString "https://10.0.0.2")
       (rancher.VString "PEM") (inl (rancher.double.localKubeconfig None))
       None)
    tt None []
  = (inr rancher.panicNilMap,
     ([] ++ rancher.settingsRead (rancher.kubeconfigOption None)
              "/etc/rancher/rke2/rke2.yaml" "https://10.0.0.2" "PEM")
     ++ [rancher.EvReadFile "/etc/rancher/rke2/rke2.yaml";
         rancher.EvSecretGet "fleet-local" "local-kubeconfig"]).
Proof.
  apply (UpdateClientSecret_nil_data
           (rancher.double.cluster (rancher.VString "https://10.0.0.2")
              (rancher.VString "PEM")
              (inl (rancher.double.localKubeconfig None)) None)
           tt None [] "/etc/rancher/rke2/rke2.yaml" "https://10.0.0.2" "PEM"
           tt (rancher.double.localKubeconfig None)).
  - apply cluster_settings_read.
  - discriminate.
  - discriminate.
  - apply cluster_secret_read.
  - reflexivity.
Defined.

(** X21.  When the object of the setting [internal-server-url] has no
    string under [value] (the key is missing, or the value is of another
    type), the function panics on the type assertion: it returns no error,
    and it has read only that setting. *)
Theorem UpdateClientSecret_setting_not_string
    {Context Config Interface Clientset : Type}
    (E : rancher.Kube Context Config Interface Clientset) (ctx : Context)
    (opts : option rancher.Options) (t : rancher.Log)
    (kubeconfig : string) (conf : Config) (client : Interface)
    (setting : rancher.Unstructured) :
  let path := rancher.kubeconfigOption opts in
  let value := rancher.index (rancher.Object setting) "value" in
  rancher.kubectl_GetKubeconfig E t path = inl kubeconfig ->
  rancher.clientcmd_BuildConfigFromFlags E (t ++ [rancher.EvGetKubeconfig path])
    EmptyString kubeconfig = inl conf ->
  rancher.dynamic_NewForConfig E conf = inl client ->
  rancher.Resource_Get E
    (t ++ [rancher.EvGetKubeconfig path;
           rancher.EvBuildConfigFromFlags EmptyString kubeconfig])
    client rancher.settings ctx "internal-server-url" = inl setting ->
  (forall s, value <> rancher.VString s) ->
  rancher.UpdateClientSecret E ctx opts t
  = (inr (rancher.panicConversion value),
     t ++ [rancher.EvGetKubeconfig path;
           rancher.EvBuildConfigFromFlags EmptyString kubeconfig;
           rancher.EvResourceGet rancher.settings "internal-server-url"])
  /\ (rancher.Object setting !! "value" = None -> value = rancher.VNil).
Proof.
  intros path value Hk Hconf Hclient Hget Hvalue.
  split; [|unfold value, rancher.index; now intros ->].
  unfold rancher.UpdateClientSecret, rancher.then_, rancher.call,
    rancher.check, rancher.orDie, rancher.assertString, rancher.log,
    rancher.setData, rancher.return_, rancher.next, rancher.DeepCopy.
  cbv beta zeta. rewrite ?Kubeconfig_option. fold path.
  rewrite Hk, Hconf, Hclient. rewrite <- ?app_assoc. cbn [app].
  rewrite Hget. fold value.
  destruct value eqn:Hv; rewrite <- ?app_assoc; try reflexivity.
  now destruct (Hvalue s).
Qed.

Lemma UpdateClientSecret_setting_not_string_witness :
  rancher.UpdateClientSecret
    (rancher.double.cluster (rancher.VInt 7) (rancher.VString "PEM")
       (inl (rancher.double.localKubeconfig (Some ∅))) None)
    tt None []
  = (inr (rancher.panicConversion (rancher.VInt 7)),
     [rancher.EvGetKubeconfig EmptyString;
      rancher.EvBuildConfigFromFlags EmptyString "/etc/rancher/rke2/rke2.yaml";
      rancher.EvResourceGet rancher.settings "internal-server-url"]).
Proof.
  refine (proj1 (UpdateClientSecret_setting_not_string
                   (rancher.double.cluster (rancher.VInt 7)
                      (rancher.VString "PEM")
                      (inl (rancher.double.localKubeconfig (Some ∅))) None)
                   tt None [] "/etc/rancher/rke2/rke2.yaml" tt tt
                   (rancher.double.setting (rancher.VInt 7))
                   eq_refl eq_refl eq_refl eq_refl _)).
  intros s. vm_compute. discriminate.
Defined.



(** X23.  In every run, the function returns nil exactly when it prints
    [Cluster client secret is updated.]; and when it returns nil it has
    sent an update for [fleet-local] that the API server answered without
    error. *)
Theorem UpdateClientSecret_success_printed
    {Context Config Interface Clientset : Type}
    (E : rancher.Kube Context Config Interface Clientset) (ctx : Context)
    (opts : option rancher.Options) (t : rancher.Log) :
  let run := rancher.UpdateClientSecret E ctx opts in
  (fst (run t) = inl None
   <-> In (rancher.EvPrintln "Cluster client secret is updated.")
          (rancher.logged run t))
  /\ (fst (run t) = inl None ->
      exists sent, In (rancher.EvSecretUpdate "fleet-local" sent)
                      (rancher.logged run t)).
Proof.
  cbv zeta.
  destruct (UpdateClientSecret_early E ctx opts t)
    as [(kubeconfig & serverURL & caCerts & Hread) | [Hnot Hearly]].
  2: { split; [split|]; try contradiction.
       intros Hin.
       pose proof (proj1 (List.Forall_forall _ _) Hearly _ Hin) as H.
       discriminate. }
  unfold rancher.logged.
  rewrite (UpdateClientSecret_settings_run _ _ _ _ E ctx opts t kubeconfig
             serverURL caCerts Hread).
  unfold rancher.settingsRead.
  assert (Hno : forall l : rancher.Log,
            Forall (fun c => match c with
                             | rancher.EvPrintln _ => False
                             | _ => True
                             end) l ->
            In (rancher.EvPrintln "Cluster client secret is updated.")
               (skipn (length t) (t ++ l)) -> False).
  { intros l Hl Hin. rewrite skipn_prefix in Hin.
    exact (proj1 (List.Forall_forall _ _) Hl _ Hin). }
  destruct (String.eqb serverURL EmptyString || String.eqb caCerts EmptyString).
  { cbn [rancher.finish fst snd].
    split; [split|]; try discriminate.
    intros Hin. exfalso. revert Hin. apply Hno. repeat constructor. }
  destruct (rancher.ioutil_ReadFile E _ kubeconfig) as [data|].
  2: { cbn [rancher.finish fst snd]. rewrite <- ?app_assoc.
       split; [split|]; try discriminate.
       intros Hin. exfalso. revert Hin. apply Hno. repeat constructor. }
  destruct (rancher.clientcmd_RESTConfigFromKubeConfig E data)
    as [restConfig|].
  2: { cbn [rancher.finish fst snd]. rewrite <- ?app_assoc.
       split; [split|]; try discriminate.
       intros Hin. exfalso. revert Hin. apply Hno. repeat constructor. }
  destruct (rancher.kubernetes_NewForConfig E restConfig) as [k8s|].
  2: { cbn [rancher.finish fst snd]. rewrite <- ?app_assoc.
       split; [split|]; try discriminate.
       intros Hin. exfalso. revert Hin. apply Hno. repeat constructor. }
  cbv zeta.
  destruct (rancher.Secrets_Get E _ k8s _ ctx _) as [secret|].
  2: { cbn [rancher.finish fst snd]. rewrite <- ?app_assoc.
       split; [split|]; try discriminate.
       intros Hin. exfalso. revert Hin. apply Hno. repeat constructor. }
  destruct (rancher.Data secret) as [d|].
  2: { cbn [rancher.finish fst snd]. rewrite <- ?app_assoc.
       split; [split|]; try discriminate.
       intros Hin. exfalso. revert Hin. apply Hno. repeat constructor. }
  destruct (rancher.Secrets_Update E _ k8s _ ctx _) as [uerr|];
    cbn [rancher.finish fst snd]; rewrite <- ?app_assoc.
  - split; [split|]; try discriminate.
    intros Hin. exfalso. revert Hin. apply Hno. repeat constructor.
  - rewrite skipn_prefix. cbn [app In].
    split; [split; [intros _; do 9 right; now left | reflexivity]|].
    intros _. eexists. do 8 right. left. reflexivity.
Qed.

Lemma UpdateClientSecret_success_printed_witness :
  exists sent,
    In (rancher.EvSecretUpdate "fleet-local" sent)
       (rancher.logged
          (rancher.UpdateClientSecret
             (rancher.double.cluster (rancher.VString "https://10.0.0.2")
                (rancher.VString "PEM")
                (inl (rancher.double.localKubeconfig (Some ∅))) None)
             tt None)
          []).
Proof.
  apply (proj2 (UpdateClientSecret_success_printed
                  (rancher.double.cluster (rancher.VString "https://10.0.0.2")
                     (rancher.VString "PEM")
                     (inl (rancher.double.localKubeconfig (Some ∅))) None)
                  tt None [])).
  vm_compute. reflexivity.
Defined.

(** The update is refused: the error comes back and nothing is printed. *)
Example scenario_update_conflict :
  rancher.UpdateClientSecret
    (rancher.double.cluster (rancher.VString "https://10.0.0.2")
       (rancher.VString "PEM")
       (inl (rancher.double.localKubeconfig (Some ∅)))
       (Some rancher.double.conflict))
    tt (Some {| rancher.Kubeconfig := "/root/.kube/config" |}) []
  = (inl (Some rancher.double.conflict),
     rancher.settingsRead "/root/.kube/config" "/root/.kube/config"
       "https://10.0.0.2" "PEM"
     ++ [rancher.EvReadFile "/root/.kube/config";
         rancher.EvSecretGet "fleet-local" "local-kubeconfig";
         rancher.EvSecretUpdate "fleet-local"
           (rancher.updated (rancher.double.localKubeconfig (Some ∅)) ∅
              "https://10.0.0.2" "PEM")]).
Proof. vm_compute. reflexivity. Qed.

(** X24.  Before the cluster is asked anything: an error of
    [kubectl.GetKubeconfig] or of [clientcmd.BuildConfigFromFlags] is
    returned as it is, whereas a configuration from which no dynamic client
    can be built makes the function panic with that error instead of
    returning it.  In the three cases no setting is read. *)
Theorem UpdateClientSecret_no_client
    {Context Config Interface Clientset : Type}
    (E : rancher.Kube Context Config Interface Clientset) (ctx : Context)
    (opts : option rancher.Options) (t : rancher.Log) :
  let path := rancher.kubeconfigOption opts in
  (forall err,
     rancher.kubectl_GetKubeconfig E t path = inr err ->
     rancher.UpdateClientSecret E ctx opts t
     = (inl (Some err), t ++ [rancher.EvGetKubeconfig path]))
  /\ (forall kubeconfig err,
        rancher.kubectl_GetKubeconfig E t path = inl kubeconfig ->
        rancher.clientcmd_BuildConfigFromFlags E
          (t ++ [rancher.EvGetKubeconfig path]) EmptyString kubeconfig
        = inr err ->
        rancher.UpdateClientSecret E ctx opts t
        = (inl (Some err),
           t ++ [rancher.EvGetKubeconfig path;
                 rancher.EvBuildConfigFromFlags EmptyString kubeconfig]))
  /\ (forall kubeconfig conf err,
        rancher.kubectl_GetKubeconfig E t path = inl kubeconfig ->
        rancher.clientcmd_BuildConfigFromFlags E
          (t ++ [rancher.EvGetKubeconfig path]) EmptyString kubeconfig
        = inl conf ->
        rancher.dynamic_NewForConfig E conf = inr err ->
        rancher.UpdateClientSecret E ctx opts t
        = (inr (rancher.panicError err),
           t ++ [rancher.EvGetKubeconfig path;
                 rancher.EvBuildConfigFromFlags EmptyString kubeconfig])).
Proof.
  intros path.
  unfold rancher.UpdateClientSecret, rancher.then_, rancher.call,
    rancher.check, rancher.orDie, rancher.assertString, rancher.log,
    rancher.setData, rancher.return_, rancher.next, rancher.DeepCopy.
  cbv beta zeta. rewrite ?Kubeconfig_option. fold path.
  split; [|split].
  - intros err ->. reflexivity.
  - intros kubeconfig err -> ->. cbn [rancher.finish].
    now rewrite <- app_assoc.
  - intros kubeconfig conf err -> -> ->. cbn [rancher.finish].
    now rewrite <- app_assoc.
Qed.

Lemma UpdateClientSecret_no_client_witness :
  rancher.UpdateClientSecret
    {| rancher.kubectl_GetKubeconfig := fun _ path => inl path;
       rancher.clientcmd_BuildConfigFromFlags := fun _ _ _ => inl tt;
       rancher.dynamic_NewForConfig := fun _ : unit =>
         @inr unit error (errors_New "host must be a URL or a host:port pair");
       rancher.Resource_Get := fun _ _ _ (_ : unit) _ =>
         inl (rancher.double.setting rancher.VNil);
       rancher.ioutil_ReadFile := fun _ _ => inl [];
       rancher.clientcmd_RESTConfigFromKubeConfig := fun _ => inl tt;
       rancher.kubernetes_NewForConfig := fun _ => @inl unit error tt;
       rancher.Secrets_Get := fun _ _ _ _ _ =>
         inl (rancher.double.localKubeconfig None);
       rancher.Secrets_Update := fun _ _ _ _ _ => None |}
    tt (Some {| rancher.Kubeconfig := "/root/.kube/config" |}) []
  = (inr (rancher.panicError
            (errors_New "host must be a URL or a host:port pair")),
     [] ++ [rancher.EvGetKubeconfig
              (rancher.kubeconfigOption
                 (Some {| rancher.Kubeconfig := "/root/.kube/config" |}));
            rancher.EvBuildConfigFromFlags EmptyString "/root/.kube/config"]).
Proof.
  apply (proj2 (proj2 (UpdateClientSecret_no_client _ tt
                         (Some {| rancher.Kubeconfig := "/root/.kube/config" |})
                         []))
           "/root/.kube/config"%string tt);
    reflexivity.
Defined.
